(** * The Dyn Managed DNS provider of lego (providers/dns/dyn/dyn.go)

    A shallow embedding of the session client ([sendRequest], [login],
    [logout]) and of the challenge provider ([Present], [publish],
    [CleanUp]), together with the properties of the specification that
    concern them.

    The Go methods mutate the receiver [*DNSProvider] and talk to the
    network through [d.client.Do].  Here a method is a function from a
    [State] (the receiver and the trace of what happened so far) to a
    result and the state it leaves, also when it returns an error: Go
    keeps the mutations done before a failing [return err].

    The collaborators that live outside the package (net/http,
    encoding/json, the acme helpers) are the fields of a [World]. *)

From Stdlib Require Import ZArith String List Bool DecimalString.
From stdpp Require Import base tactics option list strings gmap.

Local Open Scope Z_scope.
Local Open Scope string_scope.
Local Open Scope list_scope.

(** ** Data *)

(** [json.RawMessage]: the undecoded bytes of a JSON value. *)
Definition RawMessage := string.

(** What [json.Marshal] makes of the payloads of this package: structs
    and maps of strings and booleans.  An object lists its members in
    the order of the output (declaration order for a struct, sorted keys
    for a map).  Every value of this type can be marshalled, so the
    error branch after [json.Marshal] is never taken. *)
#[local] Set Warnings "-register-all".
Inductive json : Type :=
| JString (s : string)
| JBool (b : bool)
| JObject (members : list (string * json)).

(** [dynResponse] *)
Record dynResponse := {
  Status : string;        (* One of 'success', 'failure', or 'incomplete' *)
  Data : RawMessage;      (* The structure containing the actual results *)
  JobID : Z;
  Messages : RawMessage;  (* A list of zero or more messages *)
}.

(** The local [session] struct of [login]. *)
Record session := { Token : string; Version : string }.

(** [http.Client]; only the timeout is configured. *)
Record Client := { Timeout : Z (* nanoseconds *) }.

Definition Second : Z := 1000000000.

(** [DNSProvider] *)
Record DNSProvider := {
  customerName : string;
  userName : string;
  password : string;
  token : string;
  client : Client;
}.

(** [http.Request]: [Header.Set] replaces the values of a key by one
    value, so a header is a map from keys to one value.  [Body] is [None]
    for the [nil] body and [Some j] for a reader over the bytes of
    [json.Marshal] applied to [j]. *)
Record Request := {
  Method : string;
  URL : string;
  Header : gmap string string;
  Body : option json;
}.

(** [http.Response]: the parts the package reads. *)
Record Response := {
  StatusCode : Z;
  RespBody : string;
}.

(** ** Errors

    The package builds its errors with [fmt.Errorf]; each call site is a
    constructor, and [Error] gives the message.  An error made by a
    collaborator is passed on as it is: [Foreign]. *)
Inductive error : Type :=
| MissingCredentials
| ServerError (code : Z)
| ClientError (code : Z) (msgs : RawMessage)
| UnsupportedAsyncJob
| APIFailure (msgs : RawMessage)
| DeleteSessionStatus (code : Z)
| DeleteRecordStatus (code : Z)
| Foreign (msg : string).

(** [strconv.Itoa], also the [%d] verb. *)
Definition Itoa (n : Z) : string := NilZero.string_of_int (Z.to_int n).

Definition Error (e : error) : string :=
  match e with
  | MissingCredentials => "DynDNS credentials missing"
  | ServerError code =>
      "Dyn API request failed with HTTP status code " +:+ Itoa code
  | ClientError code msgs =>
      "Dyn API request failed with HTTP status code " +:+ Itoa code +:+ ": " +:+ msgs
  | UnsupportedAsyncJob =>
      "Dyn API request returned HTTP 307. This is currently unsupported"
  | APIFailure msgs => "Dyn API request failed: " +:+ msgs
  | DeleteSessionStatus code =>
      "Dyn API request failed to delete session with HTTP status code " +:+ Itoa code
  | DeleteRecordStatus code =>
      "Dyn API request failed to delete TXT record HTTP status code " +:+ Itoa code
  | Foreign msg => msg
  end.

Inductive result (A : Type) : Type :=
| Ok (a : A)
| Err (e : error).
Arguments Ok {A} a.
Arguments Err {A} e.

(** ** The world outside the package *)

Record World := {
  (* acme.DNS01Record(domain, keyAuth) = (fqdn, value, ttl) *)
  DNS01Record : string → string → string * string * Z;
  (* acme.FindZoneByFqdn(fqdn, acme.RecursiveNameservers) *)
  FindZoneByFqdn : string → string + string;
  (* the error of http.NewRequest(method, url, _), if it has one *)
  NewRequestError : string → string → option string;
  (* d.client.Do(req), after the requests already sent *)
  Do : list Request → Request → string + Response;
  (* json.NewDecoder(resp.Body).Decode(&dynRes) *)
  Decode : string → string + dynResponse;
  (* json.Unmarshal(dynRes.Data, &s) for the session struct *)
  UnmarshalSession : RawMessage → string + session;
}.

(** ** State and trace *)

Inductive Event : Type :=
| Enter (method : string)   (* a method of DNSProvider is entered *)
| Sent (req : Request).     (* d.client.Do is called with req *)

Record State := {
  provider : DNSProvider;
  trace : list Event;
}.

Definition sent (tr : list Event) : list Request :=
  omap (λ ev, match ev with Sent req => Some req | Enter _ => None end) tr.

Definition M (A : Type) : Type := State → result A * State.

Definition ret {A} (a : A) : M A := λ s, (Ok a, s).

Definition fail {A} (e : error) : M A := λ s, (Err e, s).

Definition bind {A B} (m : M A) (k : A → M B) : M B :=
  λ s, match m s with
       | (Ok a, s') => k a s'
       | (Err e, s') => (Err e, s')
       end.

Declare Scope go_scope.
Delimit Scope go_scope with go.
Notation "x <- m ;; k" := (bind m (λ x, k))
  (at level 100, m at next level, right associativity) : go_scope.
Notation "m ;; k" := (bind m (λ _, k))
  (at level 100, right associativity) : go_scope.
Local Open Scope go_scope.

(** A collaborator's [(value, err)] pair. *)
Definition foreign {A} (r : string + A) : M A :=
  match r with
  | inl msg => fail (Foreign msg)
  | inr a => ret a
  end.

Definition enter (method : string) : M unit :=
  λ s, (Ok tt, {| provider := provider s; trace := trace s ++ [Enter method] |}).

Definition receiver : M DNSProvider := λ s, (Ok (provider s), s).

Definition withToken (d : DNSProvider) (tok : string) : DNSProvider :=
  {| customerName := customerName d; userName := userName d;
     password := password d; token := tok; client := client d |}.

(** [d.token = tok] *)
Definition setToken (tok : string) : M unit :=
  λ s, (Ok tt, {| provider := withToken (provider s) tok; trace := trace s |}).

Definition dynBaseURL : string := "https://api.dynect.net/REST".

(** [NewDNSProviderCredentials] *)
Definition NewDNSProviderCredentials (customerName userName password : string)
  : result DNSProvider :=
  if (customerName =? "")%string || (userName =? "")%string || (password =? "")%string
  then Err MissingCredentials
  else Ok {| customerName := customerName;
             userName := userName;
             password := password;
             token := "";
             client := {| Timeout := 10 * Second |} |}.

(** [req.Header.Set(key, value)] *)
Definition HeaderSet (key value : string) (req : Request) : Request :=
  {| Method := Method req; URL := URL req;
     Header := <[key := value]> (Header req); Body := Body req |}.

Section Provider.

Context (W : World).

(** [http.NewRequest(method, url, body)] *)
Definition NewRequest (method url : string) (body : option json) : M Request :=
  match NewRequestError W method url with
  | Some msg => fail (Foreign msg)
  | None => ret {| Method := method; URL := url; Header := ∅; Body := body |}
  end.

(** [d.client.Do(req)] *)
Definition clientDo (req : Request) : M Response :=
  λ s, let s' := {| provider := provider s; trace := trace s ++ [Sent req] |} in
       match Do W (sent (trace s)) req with
       | inl msg => (Err (Foreign msg), s')
       | inr resp => (Ok resp, s')
       end.

(** [sendRequest] *)
Definition sendRequest (method resource : string) (payload : json) : M dynResponse :=
  enter "sendRequest" ;;
  let url := dynBaseURL +:+ "/" +:+ resource in
  req <- NewRequest method url (Some payload) ;;
  let req := HeaderSet "Content-Type" "application/json" req in
  d <- receiver ;;
  let req := if (0 <? String.length (token d))%nat
             then HeaderSet "Auth-Token" (token d) req
             else req in
  resp <- clientDo req ;;
  if (500 <=? StatusCode resp)%Z then fail (ServerError (StatusCode resp))
  else
    dynRes <- foreign (Decode W (RespBody resp)) ;;
    if (400 <=? StatusCode resp)%Z
    then fail (ClientError (StatusCode resp) (Messages dynRes))
    else if (StatusCode resp =? 307)%Z
    then fail UnsupportedAsyncJob
    else if (Status dynRes =? "failure")%string
    then fail (APIFailure (Messages dynRes))
    else ret dynRes.

(** [login]: starts a new Dyn API session. *)
Definition login : M unit :=
  enter "login" ;;
  d <- receiver ;;
  let payload := JObject [("customer_name", JString (customerName d));
                          ("user_name", JString (userName d));
                          ("password", JString (password d))] in
  dynRes <- sendRequest "POST" "Session" payload ;;
  s <- foreign (UnmarshalSession W (Data dynRes)) ;;
  setToken (Token s).

(** [logout]: destroys the Dyn session. *)
Definition logout : M unit :=
  enter "logout" ;;
  d <- receiver ;;
  if (String.length (token d) =? 0)%nat
  then ret tt   (* nothing to do *)
  else
    let url := dynBaseURL +:+ "/Session" in
    req <- NewRequest "DELETE" url None ;;
    let req := HeaderSet "Content-Type" "application/json" req in
    let req := HeaderSet "Auth-Token" (token d) req in
    resp <- clientDo req ;;
    if negb (StatusCode resp =? 200)%Z
    then fail (DeleteSessionStatus (StatusCode resp))
    else setToken "".

(** [publish] *)
Definition publish (zone notes : string) : M unit :=
  enter "publish" ;;
  let pub := JObject [("publish", JBool true); ("notes", JString notes)] in
  let resource := "Zone/" +:+ zone +:+ "/" in
  _ <- sendRequest "PUT" resource pub ;;
  ret tt.

(** [Present]: creates a TXT record using the specified parameters.
    The challenge token [token_] is not used. *)
Definition Present (domain token_ keyAuth : string) : M unit :=
  enter "Present" ;;
  let '(fqdn, value, ttl) := DNS01Record W domain keyAuth in
  authZone <- foreign (FindZoneByFqdn W fqdn) ;;
  login ;;
  let data := JObject [("rdata", JObject [("txtdata", JString value)]);
                       ("ttl", JString (Itoa ttl))] in
  let resource := "TXTRecord/" +:+ authZone +:+ "/" +:+ fqdn +:+ "/" in
  _ <- sendRequest "POST" resource data ;;
  publish authZone "Added TXT record for ACME dns-01 challenge using lego client" ;;
  logout.

(** [CleanUp]: removes the TXT record matching the specified parameters. *)
Definition CleanUp (domain token_ keyAuth : string) : M unit :=
  enter "CleanUp" ;;
  let '(fqdn, _, _) := DNS01Record W domain keyAuth in
  authZone <- foreign (FindZoneByFqdn W fqdn) ;;
  login ;;
  let resource := "TXTRecord/" +:+ authZone +:+ "/" +:+ fqdn +:+ "/" in
  let url := dynBaseURL +:+ "/" +:+ resource in
  req <- NewRequest "DELETE" url None ;;
  let req := HeaderSet "Content-Type" "application/json" req in
  d <- receiver ;;
  let req := HeaderSet "Auth-Token" (token d) req in
  resp <- clientDo req ;;
  if negb (StatusCode resp =? 200)%Z
  then fail (DeleteRecordStatus (StatusCode resp))
  else
    publish authZone "Removed TXT record for ACME dns-01 challenge using lego client" ;;
    logout.

End Provider.

(** ** Definitions used in the statements *)

(** The request [sendRequest] hands to the client: built by
    [http.NewRequest], with the JSON content type, and with the token of
    the receiver when it holds one ([sendRequest_run] below). *)
Definition sendRequest_request (d : DNSProvider) (method resource : string)
    (payload : json) : Request :=
  let req := HeaderSet "Content-Type" "application/json"
               {| Method := method; URL := dynBaseURL +:+ "/" +:+ resource;
                  Header := ∅; Body := Some payload |} in
  if (0 <? String.length (token d))%nat
  then HeaderSet "Auth-Token" (token d) req
  else req.

(** The request [logout] and [CleanUp] build themselves: a DELETE with
    no body that carries the token. *)
Definition deleteRequest (tok url : string) : Request :=
  HeaderSet "Auth-Token" tok
    (HeaderSet "Content-Type" "application/json"
       {| Method := "DELETE"; URL := url; Header := ∅; Body := None |}).

(** What [sendRequest] returns for a response, as a function of the
    response alone; [sendRequest_run] shows that this is what the method
    computes once the client has answered. *)
Definition classify (W : World) (resp : Response) : result dynResponse :=
  if (500 <=? StatusCode resp)%Z then Err (ServerError (StatusCode resp))
  else match Decode W (RespBody resp) with
       | inl msg => Err (Foreign msg)
       | inr dynRes =>
           if (400 <=? StatusCode resp)%Z
           then Err (ClientError (StatusCode resp) (Messages dynRes))
           else if (StatusCode resp =? 307)%Z then Err UnsupportedAsyncJob
           else if (Status dynRes =? "failure")%string
           then Err (APIFailure (Messages dynRes))
           else Ok dynRes
       end.

(** A response [sendRequest] takes as a success, with the envelope it
    returns. *)
Definition accepted (W : World) (resp : Response) (dynRes : dynResponse) : Prop :=
  (StatusCode resp < 400)%Z ∧ StatusCode resp ≠ 307%Z ∧
  Decode W (RespBody resp) = inr dynRes ∧ Status dynRes ≠ "failure".

(** The same world with another JSON decoder for the envelope. *)
Definition withDecode (W : World) (dec : string → string + dynResponse) : World :=
  {| DNS01Record := DNS01Record W; FindZoneByFqdn := FindZoneByFqdn W;
     NewRequestError := NewRequestError W; Do := Do W;
     Decode := dec; UnmarshalSession := UnmarshalSession W |}.

(** The state after more events. *)
Definition after (s : State) (evs : list Event) : State :=
  {| provider := provider s; trace := trace s ++ evs |}.

(** The requests of a trace that reach the client outside [sendRequest]:
    a [Sent] event that does not follow the entry of [sendRequest]
    directly.  [inside] tells whether the event before was that entry. *)
Fixpoint direct (inside : bool) (tr : list Event) : list Request :=
  match tr with
  | [] => []
  | Enter method :: tr' => direct (method =? "sendRequest")%string tr'
  | Sent req :: tr' =>
      if inside then direct false tr' else req :: direct false tr'
  end.

(** Every request that reaches the client outside [sendRequest] is a
    DELETE, whatever came before the events. *)
Definition onlyDeleteDirect (evs : list Event) : Prop :=
  ∀ inside, Forall (λ req, Method req = "DELETE") (direct inside evs).

(** A method that, from any state, adds to the trace events that
    satisfy [P]. *)
Definition emits {A} (m : M A) (P : list Event → Prop) : Prop :=
  ∀ s, ∃ evs, trace (snd (m s)) = trace s ++ evs ∧ P evs.

(** The payloads and resources of the package. *)
Definition credsPayload (d : DNSProvider) : json :=
  JObject [("customer_name", JString (customerName d));
           ("user_name", JString (userName d));
           ("password", JString (password d))].

Definition txtPayload (value : string) (ttl : Z) : json :=
  JObject [("rdata", JObject [("txtdata", JString value)]);
           ("ttl", JString (Itoa ttl))].

Definition publishPayload (notes : string) : json :=
  JObject [("publish", JBool true); ("notes", JString notes)].

Definition txtResource (zone fqdn : string) : string :=
  "TXTRecord/" +:+ zone +:+ "/" +:+ fqdn +:+ "/".

Definition zoneResource (zone : string) : string := "Zone/" +:+ zone +:+ "/".

Definition addedNote : string :=
  "Added TXT record for ACME dns-01 challenge using lego client".

Definition removedNote : string :=
  "Removed TXT record for ACME dns-01 challenge using lego client".

(** ** The constructor that reads the environment *)

(** [NewDNSProvider].  [envGet] is [env.Get] of lego's
    platform/config/env: the values of the named variables, or an error.
    Reading a key that a Go map does not hold gives the empty string.
    The error made by [fmt.Errorf] with the format "DynDNS: %v" is known
    by its message alone. *)
Definition NewDNSProvider (envGet : list string → string + gmap string string)
  : result DNSProvider :=
  match envGet ["DYN_CUSTOMER_NAME"; "DYN_USER_NAME"; "DYN_PASSWORD"] with
  | inl msg => Err (Foreign ("DynDNS: " +:+ msg))
  | inr values =>
      NewDNSProviderCredentials (default "" (values !! "DYN_CUSTOMER_NAME"))
                                (default "" (values !! "DYN_USER_NAME"))
                                (default "" (values !! "DYN_PASSWORD"))
  end.

(** ** Definitions used in the further properties *)

(** What construction puts in the receiver for good. *)
Definition credentials (d : DNSProvider) : string * string * string * Client :=
  (customerName d, userName d, password d, client d).

Definition isJSON (req : Request) : Prop :=
  Header req !! "Content-Type" = Some "application/json".

(** Where a request goes: its method and its URL. *)
Definition kind (req : Request) : string * string := (Method req, URL req).

(** Every request of the package has the JSON content type, and a
    DELETE has no body. *)
Definition wellFormed (req : Request) : Prop :=
  isJSON req ∧ (Method req = "DELETE" → Body req = None).

(** The requests of one call, in their order: the login, the change of
    the record ([change] is POST for [Present] and DELETE for
    [CleanUp]) in the zone found for it, the publish of that zone, the
    logout; none when no zone is found. *)
Definition callKinds (W : World) (domain keyAuth change : string)
  : list (string * string) :=
  let fqdn := (DNS01Record W domain keyAuth).1.1 in
  match FindZoneByFqdn W fqdn with
  | inl _ => []
  | inr zone =>
      [("POST", dynBaseURL +:+ "/Session");
       (change, dynBaseURL +:+ "/" +:+ txtResource zone fqdn);
       ("PUT", dynBaseURL +:+ "/" +:+ zoneResource zone);
       ("DELETE", dynBaseURL +:+ "/Session")]
  end.

(** From any state the method hands to the client well-formed requests
    that go, in order, where an initial part of [ks] says; when [exact]
    is set and the method returns success, where all of [ks] says. *)
Definition sendsInOrder {A} (exact : bool) (ks : list (string * string))
    (m : M A) : Prop :=
  ∀ s, ∃ evs,
    trace (snd (m s)) = trace s ++ evs ∧
    Forall wellFormed (sent evs) ∧
    match fst (m s) with
    | Ok _ => if exact then kind <$> sent evs = ks
              else (kind <$> sent evs) `prefix_of` ks
    | Err _ => (kind <$> sent evs) `prefix_of` ks
    end.

(** ** Worlds and states used in the examples *)

Module Examples.

(** A provider freshly built by [NewDNSProviderCredentials]. *)
Definition fresh : DNSProvider :=
  {| customerName := "acme"; userName := "bot"; password := "s3cret";
     token := ""; client := {| Timeout := 10 * Second |} |}.

Definition start (d : DNSProvider) : State :=
  {| provider := d; trace := [] |}.

(** A JSON string literal: the text between two quote characters. *)
Definition quoted (s : string) : string :=
  String (Ascii.ascii_of_nat 34) s +:+ String (Ascii.ascii_of_nat 34) EmptyString.

Definition member (key value : string) : string := quoted key +:+ ": " +:+ value.

Definition sessionData : RawMessage :=
  "{" +:+ member "token" (quoted "T0") +:+ ", "
      +:+ member "version" (quoted "3.7.11") +:+ "}".

Definition failureMsgs : RawMessage :=
  "[{" +:+ member "INFO" (quoted "login: Bad or expired credentials") +:+ "}]".

Definition successBody : string :=
  "{" +:+ member "status" (quoted "success") +:+ ", "
      +:+ member "data" sessionData +:+ ", "
      +:+ member "job_id" "42" +:+ ", " +:+ member "msgs" "[]" +:+ "}".

Definition failureBody : string :=
  "{" +:+ member "status" (quoted "failure") +:+ ", "
      +:+ member "data" "{}" +:+ ", "
      +:+ member "job_id" "43" +:+ ", " +:+ member "msgs" failureMsgs +:+ "}".

Definition htmlBody : string := "<html><body>Temporary Redirect</body></html>".

Definition successEnvelope : dynResponse :=
  {| Status := "success"; Data := sessionData; JobID := 42; Messages := "[]" |}.

Definition failureEnvelope : dynResponse :=
  {| Status := "failure"; Data := "{}"; JobID := 43; Messages := failureMsgs |}.

(** encoding/json on the three bodies above. *)
Definition decode (body : string) : string + dynResponse :=
  if (body =? successBody)%string then inr successEnvelope
  else if (body =? failureBody)%string then inr failureEnvelope
  else inl "invalid character '<' looking for beginning of value".

Definition unmarshalSession (raw : RawMessage) : string + session :=
  if (raw =? sessionData)%string
  then inr {| Token := "T0"; Version := "3.7.11" |}
  else inl "json: cannot unmarshal into Go value of type dyn.session".

(** A world whose server answers each request by [server], whatever was
    sent before. *)
Definition world (server : Request → Response) : World :=
  {| DNS01Record := λ domain keyAuth,
       ("_acme-challenge." +:+ domain +:+ ".", "digest-of-" +:+ keyAuth, 120%Z);
     FindZoneByFqdn := λ fqdn, inr "example.com.";
     NewRequestError := λ method url, None;
     Do := λ hist req, inr (server req);
     Decode := decode;
     UnmarshalSession := unmarshalSession |}.

(** Every request is answered 200 with a success envelope. *)
Definition allSuccess : World :=
  world (λ req, {| StatusCode := 200; RespBody := successBody |}).

(** Every request is answered with the given status and body. *)
Definition always (code : Z) (body : string) : World :=
  world (λ req, {| StatusCode := code; RespBody := body |}).

(** The login succeeds and every other request is answered with the
    given status and body. *)
Definition afterLogin (code : Z) (body : string) : World :=
  world (λ req, if (URL req =? dynBaseURL +:+ "/Session")%string
                     && (Method req =? "POST")%string
                then {| StatusCode := 200; RespBody := successBody |}
                else {| StatusCode := code; RespBody := body |}).

(** Every DELETE is answered 200 with a failure envelope, and every
    other request 200 with a success envelope. *)
Definition deleteReportsFailure : World :=
  world (λ req, if (Method req =? "DELETE")%string
                then {| StatusCode := 200; RespBody := failureBody |}
                else {| StatusCode := 200; RespBody := successBody |}).

End Examples.

(** What a call of the method [name] from [s] with outcome [out] leaves
    in the receiver: the credentials; after a success an empty token;
    after an error the receiver of before, or the one the login left. *)
Definition leaves (W : World) (name : string) (s : State)
    (out : result unit * State) : Prop :=
  credentials (provider (snd out)) = credentials (provider s) ∧
  match fst out with
  | Ok _ => provider (snd out) = withToken (provider s) ""
  | Err _ =>
      provider (snd out) = provider s ∨
      ∃ s1, login W (after s [Enter name]) = (Ok tt, s1) ∧
            provider (snd out) = provider s1
  end.

(** ** More worlds for the examples *)

Module Failures.

(** The world [W] with a resolver that finds no zone. *)
Definition noZone (W : World) : World :=
  {| DNS01Record := DNS01Record W;
     FindZoneByFqdn := λ fqdn, inl ("Could not find the start of authority for " +:+ fqdn);
     NewRequestError := NewRequestError W; Do := Do W;
     Decode := Decode W; UnmarshalSession := UnmarshalSession W |}.

(** The login and the change of the record succeed, and the PUT that
    publishes the zone is answered with the given status and body. *)
Definition publishAnswered (code : Z) (body : string) : World :=
  Examples.world (λ req, if (Method req =? "PUT")%string
                         then {| StatusCode := code; RespBody := body |}
                         else {| StatusCode := 200; RespBody := Examples.successBody |}).

(** Every request succeeds but the DELETE of the session, which is
    answered with the given status. *)
Definition logoutAnswered (code : Z) : World :=
  Examples.world (λ req, if (Method req =? "DELETE")%string
                              && (URL req =? dynBaseURL +:+ "/Session")%string
                         then {| StatusCode := code; RespBody := Examples.failureBody |}
                         else {| StatusCode := 200; RespBody := Examples.successBody |}).

(** A success envelope whose data is the empty object. *)
Definition emptyDataBody : string :=
  "{" +:+ Examples.member "status" (Examples.quoted "success") +:+ ", "
      +:+ Examples.member "data" "{}" +:+ ", "
      +:+ Examples.member "job_id" "7" +:+ ", "
      +:+ Examples.member "msgs" "[]" +:+ "}".

(** Every request is answered 200 with that envelope; unmarshalling the
    empty object into the session struct leaves its fields empty. *)
Definition emptySession : World :=
  {| DNS01Record := DNS01Record Examples.allSuccess;
     FindZoneByFqdn := FindZoneByFqdn Examples.allSuccess;
     NewRequestError := NewRequestError Examples.allSuccess;
     Do := λ hist req, inr {| StatusCode := 200; RespBody := emptyDataBody |};
     Decode := λ body,
       if (body =? emptyDataBody)%string
       then inr {| Status := "success"; Data := "{}"; JobID := 7; Messages := "[]" |}
       else Examples.decode body;
     UnmarshalSession := λ raw,
       if (raw =? "{}")%string then inr {| Token := ""; Version := "" |}
       else Examples.unmarshalSession raw |}.

(** env.Get over a list of variables that are set. *)
Definition envOf (vars : list (string * string)) (names : list string)
  : string + gmap string string :=
  match filter (λ name, (list_to_map vars : gmap string string) !! name = None) names with
  | [] => inr (list_to_map vars)
  | missing :: _ => inl ("some credentials information are missing: " +:+ missing)
  end.

End Failures.

(** ** Basic facts about the trace and the monad *)

Lemma sent_enter tr method : sent (tr ++ [Enter method]) = sent tr.
Proof. unfold sent. rewrite omap_app. simpl. apply app_nil_r. Qed.

Lemma length_zero_empty (s : string) : (String.length s =? 0)%nat = true ↔ s = "".
Proof. destruct s; simpl; split; intros; congruence. Qed.

Lemma length_pos_nonempty (s : string) : (0 <? String.length s)%nat = true ↔ s ≠ "".
Proof.
  destruct s; split; intros H; try reflexivity; try discriminate; congruence.
Qed.

(** Unfolds the plumbing of the monad, leaving the tests of the source. *)
Ltac run :=
  unfold bind, ret, fail, foreign, enter, receiver, setToken, clientDo, NewRequest;
  simpl.

(** ** Messages *)

Example Itoa_ttl : Itoa 120 = "120".
Proof. reflexivity. Qed.

Example Itoa_zero : Itoa 0 = "0".
Proof. reflexivity. Qed.

Example Itoa_negative : Itoa (-7) = "-7".
Proof. reflexivity. Qed.

Example Error_server :
  Error (ServerError 503) = "Dyn API request failed with HTTP status code 503".
Proof. reflexivity. Qed.

Example Error_client :
  Error (ClientError 404 "[]") = "Dyn API request failed with HTTP status code 404: []".
Proof. reflexivity. Qed.

Example Error_logout :
  Error (DeleteSessionStatus 401)
    = "Dyn API request failed to delete session with HTTP status code 401".
Proof. reflexivity. Qed.

(** ** Construction *)

(** C9: construction fails with the missing-credentials error exactly
    when one of the three strings is empty, and otherwise returns a
    provider that holds the three strings as given, with an empty token
    (and the ten-second client). *)
Theorem NewDNSProviderCredentials_spec (c u p : string) :
  (NewDNSProviderCredentials c u p = Err MissingCredentials
     ↔ c = "" ∨ u = "" ∨ p = "") ∧
  (¬ (c = "" ∨ u = "" ∨ p = "") →
   NewDNSProviderCredentials c u p =
     Ok {| customerName := c; userName := u; password := p;
           token := ""; client := {| Timeout := 10 * Second |} |}).
Proof.
  unfold NewDNSProviderCredentials.
  destruct (String.eqb_spec c "") as [Hc|Hc];
    destruct (String.eqb_spec u "") as [Hu|Hu];
    destruct (String.eqb_spec p "") as [Hp|Hp]; simpl;
    (split; [split; [intros H; try discriminate H; tauto | tauto] | tauto]).
Qed.

Lemma NewDNSProviderCredentials_spec_witness :
  (NewDNSProviderCredentials "acme" "" "s3cret" = Err MissingCredentials) ∧
  (NewDNSProviderCredentials "acme" "bot" "s3cret" = Ok Examples.fresh).
Proof.
  split.
  - apply (proj1 (NewDNSProviderCredentials_spec "acme" "" "s3cret")). tauto.
  - apply (proj2 (NewDNSProviderCredentials_spec "acme" "bot" "s3cret")).
    intros [H|[H|H]]; discriminate H.
Defined.

(** ** The request primitive *)

Lemma classify_accepted W resp dynRes :
  accepted W resp dynRes → classify W resp = Ok dynRes.
Proof.
  intros (Hlt & Hne & Hdec & Hst). unfold classify. rewrite Hdec.
  replace (500 <=? StatusCode resp)%Z with false by (symmetry; apply Z.leb_gt; lia).
  replace (400 <=? StatusCode resp)%Z with false by (symmetry; apply Z.leb_gt; lia).
  replace (StatusCode resp =? 307)%Z with false by (symmetry; now apply Z.eqb_neq).
  now replace (Status dynRes =? "failure")%string with false
    by (symmetry; now apply String.eqb_neq).
Qed.

Lemma classify_Ok W resp dynRes :
  classify W resp = Ok dynRes → accepted W resp dynRes.
Proof.
  unfold classify, accepted.
  destruct (Z.leb_spec 500 (StatusCode resp)); [discriminate|].
  destruct (Decode W (RespBody resp)) as [msg|dynRes']; [discriminate|].
  destruct (Z.leb_spec 400 (StatusCode resp)); [discriminate|].
  destruct (Z.eqb_spec (StatusCode resp) 307); [discriminate|].
  destruct (String.eqb_spec (Status dynRes') "failure"); [discriminate|].
  intros Hok. injection Hok as <-. repeat split; assumption.
Qed.

Section SendRequest.

Context (W : World) (s : State) (method resource : string) (payload : json).

(** [sendRequest] never changes the receiver, and it sends at most one
    request: none when [http.NewRequest] fails. *)
Lemma sendRequest_rejected msg :
  NewRequestError W method (dynBaseURL +:+ "/" +:+ resource) = Some msg →
  sendRequest W method resource payload s =
    (Err (Foreign msg), after s [Enter "sendRequest"]).
Proof.
  intros Hnew. unfold sendRequest. run. now rewrite Hnew.
Qed.

Lemma sendRequest_run :
  NewRequestError W method (dynBaseURL +:+ "/" +:+ resource) = None →
  sendRequest W method resource payload s =
    (match Do W (sent (trace s))
             (sendRequest_request (provider s) method resource payload) with
     | inl msg => Err (Foreign msg)
     | inr resp => classify W resp
     end,
     after s [Enter "sendRequest";
              Sent (sendRequest_request (provider s) method resource payload)]).
Proof.
  intros Hnew. unfold sendRequest. run. rewrite Hnew. simpl.
  rewrite sent_enter. unfold sendRequest_request, classify, after.
  rewrite <- !app_assoc. simpl.
  destruct (Do W _ _) as [msg|resp]; [reflexivity|].
  destruct (500 <=? StatusCode resp)%Z; [reflexivity|].
  destruct (Decode W (RespBody resp)) as [msg|dynRes]; [reflexivity|]. simpl.
  destruct (400 <=? StatusCode resp)%Z; [reflexivity|].
  destruct (StatusCode resp =? 307)%Z; [reflexivity|].
  destruct (Status dynRes =? "failure")%string; reflexivity.
Qed.

Lemma sendRequest_ok resp dynRes :
  NewRequestError W method (dynBaseURL +:+ "/" +:+ resource) = None →
  Do W (sent (trace s))
     (sendRequest_request (provider s) method resource payload) = inr resp →
  accepted W resp dynRes →
  sendRequest W method resource payload s =
    (Ok dynRes,
     after s [Enter "sendRequest";
              Sent (sendRequest_request (provider s) method resource payload)]).
Proof.
  intros Hnew Hdo Hacc. rewrite sendRequest_run by exact Hnew.
  now rewrite Hdo, (classify_accepted _ _ _ Hacc).
Qed.

End SendRequest.

Section Classification.

Context (W : World) (s : State) (method resource : string) (payload : json).

(** C6: when the response has a status code of 500 or more,
    [sendRequest] returns the server error with that code.  The body is
    not decoded: the outcome is the same with any other JSON decoder in
    place of the world's. *)
Theorem sendRequest_server_error (resp : Response) :
  NewRequestError W method (dynBaseURL +:+ "/" +:+ resource) = None →
  Do W (sent (trace s))
     (sendRequest_request (provider s) method resource payload) = inr resp →
  (500 ≤ StatusCode resp)%Z →
  fst (sendRequest W method resource payload s)
    = Err (ServerError (StatusCode resp)) ∧
  ∀ dec, sendRequest (withDecode W dec) method resource payload s
         = sendRequest W method resource payload s.
Proof.
  intros Hnew Hdo Hcode.
  assert (Hleb : (500 <=? StatusCode resp)%Z = true) by now apply Z.leb_le.
  split; [|intros dec].
  - rewrite sendRequest_run by exact Hnew. simpl. rewrite Hdo.
    unfold classify. now rewrite Hleb.
  - rewrite !sendRequest_run by exact Hnew. simpl. rewrite Hdo.
    unfold classify. now rewrite Hleb.
Qed.

(** C7, as the code has it: a response with status code 307 whose body
    decodes gives the unsupported-async-job error, whatever envelope the
    body decodes to; when the body does not decode, the decoder's error
    is returned instead, as it is. *)
Theorem sendRequest_307 (resp : Response) :
  NewRequestError W method (dynBaseURL +:+ "/" +:+ resource) = None →
  Do W (sent (trace s))
     (sendRequest_request (provider s) method resource payload) = inr resp →
  StatusCode resp = 307%Z →
  fst (sendRequest W method resource payload s) =
    match Decode W (RespBody resp) with
    | inr _ => Err UnsupportedAsyncJob
    | inl msg => Err (Foreign msg)
    end.
Proof.
  intros Hnew Hdo Hcode.
  rewrite sendRequest_run by exact Hnew. simpl. rewrite Hdo.
  unfold classify. rewrite Hcode. simpl.
  now destruct (Decode W (RespBody resp)).
Qed.

(** C5, as the code has it: for a response whose body decodes to an
    envelope with status "failure", [sendRequest] returns the API failure
    that carries the messages of the envelope when the status code is
    below 400 and is not 307, so for every 2xx code.  With a code from
    400 to 499 it returns the client error (with the code and the same
    messages), with 307 the unsupported-async-job error, and with 500 or
    more the server error. *)
Theorem sendRequest_api_failure (resp : Response) (dynRes : dynResponse) :
  NewRequestError W method (dynBaseURL +:+ "/" +:+ resource) = None →
  Do W (sent (trace s))
     (sendRequest_request (provider s) method resource payload) = inr resp →
  Decode W (RespBody resp) = inr dynRes →
  Status dynRes = "failure" →
  let code := StatusCode resp in
  let res := fst (sendRequest W method resource payload s) in
  ((code < 400)%Z → code ≠ 307%Z → res = Err (APIFailure (Messages dynRes))) ∧
  ((200 ≤ code ≤ 299)%Z → res = Err (APIFailure (Messages dynRes))) ∧
  ((400 ≤ code < 500)%Z → res = Err (ClientError code (Messages dynRes))) ∧
  (code = 307%Z → res = Err UnsupportedAsyncJob) ∧
  ((500 ≤ code)%Z → res = Err (ServerError code)).
Proof.
  intros Hnew Hdo Hdec Hst code res. subst res.
  rewrite sendRequest_run by exact Hnew. simpl. rewrite Hdo.
  unfold classify. rewrite Hdec, Hst. fold code. simpl.
  destruct (Z.leb_spec 500 code) as [H500|H500];
    destruct (Z.leb_spec 400 code) as [H400|H400];
    destruct (Z.eqb_spec code 307) as [H307|H307];
    repeat split; intros; try reflexivity; lia.
Qed.

End Classification.

(** C6 at a 503 whose body is an HTML page. *)
Lemma sendRequest_server_error_witness :
  fst (sendRequest (Examples.always 503 Examples.htmlBody) "PUT" "Zone/example.com./"
         (publishPayload addedNote) (Examples.start Examples.fresh))
    = Err (ServerError 503).
Proof.
  refine (proj1 (sendRequest_server_error
                   (Examples.always 503 Examples.htmlBody)
                   (Examples.start Examples.fresh) "PUT" "Zone/example.com./"
                   (publishPayload addedNote)
                   {| StatusCode := 503; RespBody := Examples.htmlBody |} _ _ _)).
  - reflexivity.
  - reflexivity.
  - simpl. lia.
Defined.

(** C7 at a 307 whose body is a success envelope. *)
Lemma sendRequest_307_witness :
  fst (sendRequest (Examples.always 307 Examples.successBody) "POST" "Session"
         (credsPayload Examples.fresh) (Examples.start Examples.fresh))
    = Err UnsupportedAsyncJob.
Proof.
  exact (sendRequest_307 (Examples.always 307 Examples.successBody)
           (Examples.start Examples.fresh) "POST" "Session"
           (credsPayload Examples.fresh)
           {| StatusCode := 307; RespBody := Examples.successBody |}
           eq_refl eq_refl eq_refl).
Defined.

(** C7 as stated fails: a 307 whose body is an HTML page, which is no
    JSON envelope, makes [sendRequest] return the decoder's error and not
    the unsupported-async-job error. *)
Lemma sendRequest_307_undecodable :
  let W := Examples.always 307 Examples.htmlBody in
  let s := Examples.start Examples.fresh in
  let payload := credsPayload Examples.fresh in
  Do W (sent (trace s)) (sendRequest_request (provider s) "POST" "Session" payload)
    = inr {| StatusCode := 307; RespBody := Examples.htmlBody |} ∧
  fst (sendRequest W "POST" "Session" payload s)
    = Err (Foreign "invalid character '<' looking for beginning of value") ∧
  fst (sendRequest W "POST" "Session" payload s) ≠ Err UnsupportedAsyncJob.
Proof.
  cbv zeta. split; [reflexivity|].
  assert (H : fst (sendRequest (Examples.always 307 Examples.htmlBody) "POST" "Session"
                     (credsPayload Examples.fresh) (Examples.start Examples.fresh))
              = Err (Foreign "invalid character '<' looking for beginning of value"))
    by (vm_compute; reflexivity).
  split; [exact H|]. rewrite H. discriminate.
Qed.

(** C5 at a 200 whose body is a failure envelope. *)
Lemma sendRequest_api_failure_witness :
  fst (sendRequest (Examples.always 200 Examples.failureBody) "POST" "Session"
         (credsPayload Examples.fresh) (Examples.start Examples.fresh))
    = Err (APIFailure Examples.failureMsgs).
Proof.
  refine (proj1 (proj2 (sendRequest_api_failure
            (Examples.always 200 Examples.failureBody)
            (Examples.start Examples.fresh) "POST" "Session"
            (credsPayload Examples.fresh)
            {| StatusCode := 200; RespBody := Examples.failureBody |}
            Examples.failureEnvelope eq_refl eq_refl eq_refl eq_refl)) _).
  simpl. lia.
Defined.

(** C5 as stated fails: under a 400, a body that decodes to a failure
    envelope gives the client error (with the status code), not the API
    failure. *)
Lemma sendRequest_failure_envelope_400 :
  let W := Examples.always 400 Examples.failureBody in
  let s := Examples.start Examples.fresh in
  let payload := credsPayload Examples.fresh in
  Do W (sent (trace s)) (sendRequest_request (provider s) "POST" "Session" payload)
    = inr {| StatusCode := 400; RespBody := Examples.failureBody |} ∧
  Decode W Examples.failureBody = inr Examples.failureEnvelope ∧
  Status Examples.failureEnvelope = "failure" ∧
  fst (sendRequest W "POST" "Session" payload s)
    = Err (ClientError 400 Examples.failureMsgs) ∧
  fst (sendRequest W "POST" "Session" payload s)
    ≠ Err (APIFailure (Messages Examples.failureEnvelope)).
Proof.
  cbv zeta. split; [reflexivity|]. split; [reflexivity|]. split; [reflexivity|].
  assert (H : fst (sendRequest (Examples.always 400 Examples.failureBody) "POST" "Session"
                     (credsPayload Examples.fresh) (Examples.start Examples.fresh))
              = Err (ClientError 400 Examples.failureMsgs))
    by (vm_compute; reflexivity).
  split; [exact H|]. rewrite H. discriminate.
Qed.

(** ** The session: login and logout *)

Lemma sendRequest_request_token d method resource payload :
  Header (sendRequest_request d method resource payload) !! "Auth-Token"
    = if (0 <? String.length (token d))%nat then Some (token d) else None.
Proof.
  unfold sendRequest_request, HeaderSet.
  destruct (0 <? String.length (token d))%nat; simpl.
  - apply lookup_insert_eq.
  - rewrite lookup_insert_ne by discriminate. apply lookup_empty.
Qed.

Lemma deleteRequest_token tok url :
  Header (deleteRequest tok url) !! "Auth-Token" = Some tok.
Proof. unfold deleteRequest, HeaderSet. simpl. apply lookup_insert_eq. Qed.

Section Session.

Context (W : World) (s : State).

Lemma logout_noop :
  token (provider s) = "" →
  logout W s = (Ok tt, after s [Enter "logout"]).
Proof.
  intros Htok. unfold logout. run. now rewrite Htok.
Qed.

Lemma logout_rejected msg :
  token (provider s) ≠ "" →
  NewRequestError W "DELETE" (dynBaseURL +:+ "/Session") = Some msg →
  logout W s = (Err (Foreign msg), after s [Enter "logout"]).
Proof.
  intros Htok Hnew. unfold logout. run.
  destruct (String.length (token (provider s)) =? 0)%nat eqn:Hlen.
  - now apply length_zero_empty in Hlen.
  - simpl in Hnew. now rewrite Hnew.
Qed.

Lemma logout_run :
  token (provider s) ≠ "" →
  NewRequestError W "DELETE" (dynBaseURL +:+ "/Session") = None →
  let req := deleteRequest (token (provider s)) (dynBaseURL +:+ "/Session") in
  let s1 := after s [Enter "logout"; Sent req] in
  logout W s =
    match Do W (sent (trace s)) req with
    | inl msg => (Err (Foreign msg), s1)
    | inr resp =>
        if (StatusCode resp =? 200)%Z
        then (Ok tt, {| provider := withToken (provider s) ""; trace := trace s1 |})
        else (Err (DeleteSessionStatus (StatusCode resp)), s1)
    end.
Proof.
  intros Htok Hnew. unfold logout. run.
  destruct (String.length (token (provider s)) =? 0)%nat eqn:Hlen.
  { now apply length_zero_empty in Hlen. }
  simpl in Hnew. rewrite Hnew. simpl. rewrite sent_enter.
  unfold deleteRequest, after. rewrite <- !app_assoc. simpl.
  destruct (Do W _ _) as [msg|resp]; [reflexivity|].
  now destruct (StatusCode resp =? 200)%Z.
Qed.

Lemma login_rejected msg :
  NewRequestError W "POST" (dynBaseURL +:+ "/Session") = Some msg →
  login W s = (Err (Foreign msg), after s [Enter "login"; Enter "sendRequest"]).
Proof.
  intros Hnew. unfold login. run.
  rewrite (sendRequest_rejected W _ _ _ _ msg) by exact Hnew.
  unfold after. simpl. now rewrite <- app_assoc.
Qed.

Lemma login_run :
  NewRequestError W "POST" (dynBaseURL +:+ "/Session") = None →
  let req := sendRequest_request (provider s) "POST" "Session"
               (credsPayload (provider s)) in
  let s1 := after s [Enter "login"; Enter "sendRequest"; Sent req] in
  login W s =
    match Do W (sent (trace s)) req with
    | inl msg => (Err (Foreign msg), s1)
    | inr resp =>
        match classify W resp with
        | Err e => (Err e, s1)
        | Ok dynRes =>
            match UnmarshalSession W (Data dynRes) with
            | inl msg => (Err (Foreign msg), s1)
            | inr sess =>
                (Ok tt, {| provider := withToken (provider s) (Token sess);
                           trace := trace s1 |})
            end
        end
    end.
Proof.
  intros Hnew. unfold login. run.
  rewrite sendRequest_run by exact Hnew. simpl. rewrite sent_enter.
  unfold after, credsPayload. simpl. rewrite <- !app_assoc. simpl.
  destruct (Do W _ _) as [msg|resp]; [reflexivity|].
  destruct (classify W resp) as [dynRes|e]; [|reflexivity].
  now destruct (UnmarshalSession W (Data dynRes)).
Qed.

End Session.

(** C10: with an empty token, [logout] returns success without calling
    the client (the requests sent are those sent before), and leaves the
    receiver, and so the empty token, as it was. *)
Theorem logout_without_token (W : World) (s : State) :
  token (provider s) = "" →
  fst (logout W s) = Ok tt ∧
  sent (trace (snd (logout W s))) = sent (trace s) ∧
  provider (snd (logout W s)) = provider s ∧
  token (provider (snd (logout W s))) = "".
Proof.
  intros Htok. rewrite logout_noop by exact Htok. simpl.
  rewrite sent_enter. now rewrite Htok.
Qed.

Lemma logout_without_token_witness :
  fst (logout (Examples.always 500 Examples.htmlBody) (Examples.start Examples.fresh))
    = Ok tt ∧
  token (provider (snd (logout (Examples.always 500 Examples.htmlBody)
                          (Examples.start Examples.fresh)))) = "".
Proof.
  destruct (logout_without_token (Examples.always 500 Examples.htmlBody)
              (Examples.start Examples.fresh) eq_refl) as (Hres & _ & _ & Htok).
  exact (conj Hres Htok).
Defined.

(** C3, as the code has it: with a non-empty token, [logout] resets the
    stored token to the empty string when it returns success, which it
    does when the remote DELETE of the session is answered with status
    200; when [logout] returns an error (the request could not be built,
    the transport failed, or the status was not 200) the stored token is
    the one held before. *)
Theorem logout_token (W : World) (s : State) :
  token (provider s) ≠ "" →
  (fst (logout W s) = Ok tt → token (provider (snd (logout W s))) = "") ∧
  (∀ e, fst (logout W s) = Err e →
        token (provider (snd (logout W s))) = token (provider s)) ∧
  (∀ resp,
     NewRequestError W "DELETE" (dynBaseURL +:+ "/Session") = None →
     Do W (sent (trace s))
        (deleteRequest (token (provider s)) (dynBaseURL +:+ "/Session")) = inr resp →
     fst (logout W s) =
       if (StatusCode resp =? 200)%Z then Ok tt
       else Err (DeleteSessionStatus (StatusCode resp))).
Proof.
  intros Htok.
  destruct (NewRequestError W "DELETE" (dynBaseURL +:+ "/Session")) as [msg|] eqn:Hnew.
  - rewrite (logout_rejected W s msg Htok Hnew). simpl.
    repeat split; intros; discriminate.
  - rewrite (logout_run W s Htok Hnew). cbv zeta.
    destruct (Do W _ _) as [msg|resp] eqn:Hdo.
    + repeat split; intros; discriminate.
    + destruct (StatusCode resp =? 200)%Z eqn:Hcode; simpl;
        (split; [|split]);
        try (intros; discriminate); try reflexivity.
      * intros resp' _ Hresp. injection Hresp as <-. now rewrite Hcode.
      * intros resp' _ Hresp. injection Hresp as <-. now rewrite Hcode.
Qed.

Lemma logout_token_witness :
  token (provider (snd (logout Examples.allSuccess
                          (Examples.start (withToken Examples.fresh "T0"))))) = "".
Proof.
  refine (proj1 (logout_token Examples.allSuccess
                   (Examples.start (withToken Examples.fresh "T0")) _) _).
  - discriminate.
  - vm_compute. reflexivity.
Defined.

(** C3 as stated fails: when the remote DELETE of the session is
    answered 404, [logout] returns, with an error, and the token is still
    the one held before. *)
Lemma logout_keeps_token_on_404 :
  let W := Examples.always 404 Examples.failureBody in
  let s := Examples.start (withToken Examples.fresh "T0") in
  token (provider s) = "T0" ∧
  fst (logout W s) = Err (DeleteSessionStatus 404) ∧
  token (provider (snd (logout W s))) = "T0" ∧
  token (provider (snd (logout W s))) ≠ "".
Proof.
  cbv zeta. split; [reflexivity|]. split; [vm_compute; reflexivity|].
  assert (H : token (provider (snd (logout (Examples.always 404 Examples.failureBody)
                 (Examples.start (withToken Examples.fresh "T0"))))) = "T0")
    by (vm_compute; reflexivity).
  split; [exact H|]. rewrite H. discriminate.
Qed.

(** C8, as the code has it: the request [sendRequest] hands to the
    client has the Auth-Token header exactly when the stored token is
    not empty, and then the header is that token.  When [login] returns
    success, the stored token is the token unmarshalled from the data of
    the response to the login request.  When that token is not empty,
    every request of [sendRequest] made while it is the stored one has
    it as its Auth-Token header, and so has the DELETE request of
    [logout]; when it is the empty string, the requests of [sendRequest]
    have no Auth-Token header. *)
Theorem auth_token_header (W : World) :
  (∀ s method resource payload,
     NewRequestError W method (dynBaseURL +:+ "/" +:+ resource) = None →
     ∃ req,
       trace (snd (sendRequest W method resource payload s))
         = trace s ++ [Enter "sendRequest"; Sent req] ∧
       (token (provider s) ≠ "" →
        Header req !! "Auth-Token" = Some (token (provider s))) ∧
       (token (provider s) = "" → Header req !! "Auth-Token" = None)) ∧
  (∀ s s',
     login W s = (Ok tt, s') →
     ∃ resp dynRes sess,
       Do W (sent (trace s))
          (sendRequest_request (provider s) "POST" "Session"
             (credsPayload (provider s))) = inr resp ∧
       Decode W (RespBody resp) = inr dynRes ∧
       UnmarshalSession W (Data dynRes) = inr sess ∧
       token (provider s') = Token sess ∧
       (Token sess ≠ "" →
        ∀ s2, token (provider s2) = Token sess →
          (∀ method resource payload,
             NewRequestError W method (dynBaseURL +:+ "/" +:+ resource) = None →
             ∃ req,
               trace (snd (sendRequest W method resource payload s2))
                 = trace s2 ++ [Enter "sendRequest"; Sent req] ∧
               Header req !! "Auth-Token" = Some (Token sess)) ∧
          (NewRequestError W "DELETE" (dynBaseURL +:+ "/Session") = None →
           ∃ req,
             trace (snd (logout W s2)) = trace s2 ++ [Enter "logout"; Sent req] ∧
             Header req !! "Auth-Token" = Some (Token sess))) ∧
       (Token sess = "" →
        ∀ s2, token (provider s2) = Token sess →
          ∀ method resource payload,
            NewRequestError W method (dynBaseURL +:+ "/" +:+ resource) = None →
            ∃ req,
              trace (snd (sendRequest W method resource payload s2))
                = trace s2 ++ [Enter "sendRequest"; Sent req] ∧
              Header req !! "Auth-Token" = None)).
Proof.
  assert (Hsend : ∀ s method resource payload,
     NewRequestError W method (dynBaseURL +:+ "/" +:+ resource) = None →
     ∃ req,
       trace (snd (sendRequest W method resource payload s))
         = trace s ++ [Enter "sendRequest"; Sent req] ∧
       (token (provider s) ≠ "" →
        Header req !! "Auth-Token" = Some (token (provider s))) ∧
       (token (provider s) = "" → Header req !! "Auth-Token" = None)).
  { intros s method resource payload Hnew.
    exists (sendRequest_request (provider s) method resource payload).
    rewrite sendRequest_run by exact Hnew. simpl.
    rewrite sendRequest_request_token.
    split; [reflexivity|]. split; intros Htok.
    - apply length_pos_nonempty in Htok. now rewrite Htok.
    - now rewrite Htok. }
  split; [exact Hsend|].
  intros s s' Hlogin.
  destruct (NewRequestError W "POST" (dynBaseURL +:+ "/Session")) as [msg|] eqn:Hnew.
  { rewrite (login_rejected W s msg Hnew) in Hlogin. discriminate. }
  rewrite (login_run W s Hnew) in Hlogin. cbv zeta in Hlogin.
  destruct (Do W _ _) as [msg|resp] eqn:Hdo; [discriminate|].
  unfold classify in Hlogin.
  destruct (500 <=? StatusCode resp)%Z; [discriminate|].
  destruct (Decode W (RespBody resp)) as [msg|dynRes] eqn:Hdec; [discriminate|].
  destruct (400 <=? StatusCode resp)%Z; [discriminate|].
  destruct (StatusCode resp =? 307)%Z; [discriminate|].
  destruct (Status dynRes =? "failure")%string; [discriminate|].
  destruct (UnmarshalSession W (Data dynRes)) as [msg|sess] eqn:Hun; [discriminate|].
  injection Hlogin as <-.
  exists resp, dynRes, sess.
  repeat (split; [first [reflexivity | assumption]|]).
  split.
  - intros Hne s2 Htok. split.
    + intros method resource payload Hnew2.
      destruct (Hsend s2 method resource payload Hnew2) as (req & Htr & Hhdr & _).
      exists req. split; [exact Htr|]. rewrite <- Htok. apply Hhdr. now rewrite Htok.
    + intros Hnew2.
      exists (deleteRequest (token (provider s2)) (dynBaseURL +:+ "/Session")).
      assert (Hne2 : token (provider s2) ≠ "") by now rewrite Htok.
      rewrite (logout_run W s2 Hne2 Hnew2). cbv zeta.
      rewrite deleteRequest_token, Htok. split; [|reflexivity].
      destruct (Do W (sent (trace s2)) _) as [msg|resp2]; [reflexivity|].
      now destruct (StatusCode resp2 =? 200)%Z.
  - intros Hempty s2 Htok method resource payload Hnew2.
    destruct (Hsend s2 method resource payload Hnew2) as (req & Htr & _ & Hhdr).
    exists req. split; [exact Htr|]. apply Hhdr. now rewrite Htok.
Qed.

(** C8 (as the code has it) in the world that answers every request
    with a success envelope: the request sent after the login carries
    the token "T0" of the login's response. *)
Lemma auth_token_header_witness :
  let W := Examples.allSuccess in
  let s1 := snd (login W (Examples.start Examples.fresh)) in
  ∃ req,
    trace (snd (sendRequest W "PUT" "Zone/example.com./" (publishPayload addedNote) s1))
      = trace s1 ++ [Enter "sendRequest"; Sent req] ∧
    Header req !! "Auth-Token" = Some "T0".
Proof.
  cbv zeta.
  destruct (proj1 (auth_token_header Examples.allSuccess)
              (snd (login Examples.allSuccess (Examples.start Examples.fresh)))
              "PUT" "Zone/example.com./" (publishPayload addedNote) eq_refl)
    as (req & Htrace & Hheader & _).
  exists req. split; [exact Htrace|]. apply Hheader. discriminate.
Defined.

(** C8 as stated fails: the login is answered with a success envelope
    whose data is an empty object, so it returns success with an empty
    token, and the request that follows has no Auth-Token header. *)
Lemma request_after_empty_login :
  let W := Failures.emptySession in
  let s := Examples.start Examples.fresh in
  let s1 := snd (login W s) in
  let req := sendRequest_request (provider s1) "PUT" "Zone/example.com./"
               (publishPayload addedNote) in
  Do W (sent (trace s))
     (sendRequest_request (provider s) "POST" "Session" (credsPayload (provider s)))
    = inr {| StatusCode := 200; RespBody := Failures.emptyDataBody |} ∧
  Decode W Failures.emptyDataBody
    = inr {| Status := "success"; Data := "{}"; JobID := 7; Messages := "[]" |} ∧
  UnmarshalSession W "{}" = inr {| Token := ""; Version := "" |} ∧
  fst (login W s) = Ok tt ∧
  token (provider s1) = "" ∧
  trace (snd (sendRequest W "PUT" "Zone/example.com./" (publishPayload addedNote) s1))
    = trace s1 ++ [Enter "sendRequest"; Sent req] ∧
  Header req !! "Auth-Token" = None ∧
  Header req !! "Auth-Token" ≠ Some (Token {| Token := ""; Version := "" |}).
Proof.
  cbv zeta. repeat (split; [vm_compute; reflexivity|]).
  vm_compute. discriminate.
Qed.

(** ** The challenge provider *)

Lemma sent_app tr tr' : sent (tr ++ tr') = sent tr ++ sent tr'.
Proof. unfold sent. apply omap_app. Qed.

(** Brings the requests sent along a trace to the form [hist ++ [q; ...]]. *)
Ltac norm_sent :=
  rewrite ?sent_app; simpl; rewrite ?app_nil_r, <- ?app_assoc; simpl.

Ltac in_list :=
  solve [repeat first [apply list_elem_of_here | apply list_elem_of_further]].

Lemma bind_ok {A B} (m : M A) (k : A → M B) s a s' :
  m s = (Ok a, s') → bind m k s = k a s'.
Proof. intros H. unfold bind. now rewrite H. Qed.

Lemma bind_err {A B} (m : M A) (k : A → M B) s e s' :
  m s = (Err e, s') → bind m k s = (Err e, s').
Proof. intros H. unfold bind. now rewrite H. Qed.

Lemma login_ok W s resp dynRes sess :
  NewRequestError W "POST" (dynBaseURL +:+ "/Session") = None →
  Do W (sent (trace s))
     (sendRequest_request (provider s) "POST" "Session"
        (credsPayload (provider s))) = inr resp →
  accepted W resp dynRes →
  UnmarshalSession W (Data dynRes) = inr sess →
  login W s =
    (Ok tt,
     {| provider := withToken (provider s) (Token sess);
        trace := trace s ++
                 [Enter "login"; Enter "sendRequest";
                  Sent (sendRequest_request (provider s) "POST" "Session"
                          (credsPayload (provider s)))] |}).
Proof.
  intros Hnew Hdo Hacc Hun. rewrite login_run by exact Hnew. cbv zeta.
  now rewrite Hdo, (classify_accepted _ _ _ Hacc), Hun.
Qed.

Lemma publish_rejected W s zone notes msg :
  NewRequestError W "PUT" (dynBaseURL +:+ "/" +:+ zoneResource zone) = Some msg →
  publish W zone notes s
    = (Err (Foreign msg), after s [Enter "publish"; Enter "sendRequest"]).
Proof.
  intros Hnew. unfold publish. run.
  rewrite (sendRequest_rejected W _ _ _ _ msg) by exact Hnew.
  unfold after. simpl. now rewrite <- app_assoc.
Qed.

Lemma publish_run W s zone notes :
  NewRequestError W "PUT" (dynBaseURL +:+ "/" +:+ zoneResource zone) = None →
  let req := sendRequest_request (provider s) "PUT" (zoneResource zone)
               (publishPayload notes) in
  publish W zone notes s =
    (match Do W (sent (trace s)) req with
     | inl msg => Err (Foreign msg)
     | inr resp => match classify W resp with
                   | Ok _ => Ok tt
                   | Err e => Err e
                   end
     end, after s [Enter "publish"; Enter "sendRequest"; Sent req]).
Proof.
  intros Hnew. unfold publish. run.
  rewrite sendRequest_run by exact Hnew. simpl. rewrite sent_enter.
  unfold after, publishPayload, zoneResource. simpl. rewrite <- !app_assoc. simpl.
  destruct (Do W _ _) as [msg|resp]; [reflexivity|].
  now destruct (classify W resp).
Qed.

Lemma publish_ok W s zone notes resp dynRes :
  NewRequestError W "PUT" (dynBaseURL +:+ "/" +:+ zoneResource zone) = None →
  Do W (sent (trace s))
     (sendRequest_request (provider s) "PUT" (zoneResource zone)
        (publishPayload notes)) = inr resp →
  accepted W resp dynRes →
  publish W zone notes s =
    (Ok tt,
     after s [Enter "publish"; Enter "sendRequest";
              Sent (sendRequest_request (provider s) "PUT" (zoneResource zone)
                      (publishPayload notes))]).
Proof.
  intros Hnew Hdo Hacc. rewrite publish_run by exact Hnew. cbv zeta.
  now rewrite Hdo, (classify_accepted _ _ _ Hacc).
Qed.

Lemma logout_ok W s resp :
  token (provider s) ≠ "" →
  NewRequestError W "DELETE" (dynBaseURL +:+ "/Session") = None →
  Do W (sent (trace s))
     (deleteRequest (token (provider s)) (dynBaseURL +:+ "/Session")) = inr resp →
  StatusCode resp = 200%Z →
  logout W s =
    (Ok tt,
     {| provider := withToken (provider s) "";
        trace := trace s ++
                 [Enter "logout";
                  Sent (deleteRequest (token (provider s))
                          (dynBaseURL +:+ "/Session"))] |}).
Proof.
  intros Htok Hnew Hdo Hcode. rewrite logout_run by assumption. cbv zeta.
  now rewrite Hdo, Hcode.
Qed.

(** C1: when the zone is found and every request is built, answered and
    taken as a success (the login's data unmarshals to a session, the
    session DELETE is answered 200), [Present] returns success after
    exactly these steps, in this order: login (POST Session), create
    (POST TXTRecord/zone/fqdn/ with the derived value as txtdata and the
    derived ttl as a decimal string), publish (PUT Zone/zone/ with
    publish true), logout (DELETE Session; with an empty session token
    [logout] is entered and has nothing to send). *)
Theorem Present_success (W : World) (s : State)
    (domain token_ keyAuth fqdn value zone : string) (ttl : Z)
    (r1 r2 r3 : Response) (e1 e2 e3 : dynResponse) (sess : session) :
  let d := provider s in
  let d1 := withToken d (Token sess) in
  let q1 := sendRequest_request d "POST" "Session"
              (JObject [("customer_name", JString (customerName d));
                        ("user_name", JString (userName d));
                        ("password", JString (password d))]) in
  let q2 := sendRequest_request d1 "POST"
              ("TXTRecord/" +:+ zone +:+ "/" +:+ fqdn +:+ "/")
              (JObject [("rdata", JObject [("txtdata", JString value)]);
                        ("ttl", JString (Itoa ttl))]) in
  let q3 := sendRequest_request d1 "PUT" ("Zone/" +:+ zone +:+ "/")
              (JObject [("publish", JBool true); ("notes", JString addedNote)]) in
  let q4 := deleteRequest (Token sess) (dynBaseURL +:+ "/Session") in
  DNS01Record W domain keyAuth = (fqdn, value, ttl) →
  FindZoneByFqdn W fqdn = inr zone →
  (∀ q, q ∈ [q1; q2; q3; q4] → NewRequestError W (Method q) (URL q) = None) →
  Do W (sent (trace s)) q1 = inr r1 →
  accepted W r1 e1 →
  UnmarshalSession W (Data e1) = inr sess →
  Do W (sent (trace s) ++ [q1]) q2 = inr r2 →
  accepted W r2 e2 →
  Do W (sent (trace s) ++ [q1; q2]) q3 = inr r3 →
  accepted W r3 e3 →
  (Token sess ≠ "" →
   ∃ r4, Do W (sent (trace s) ++ [q1; q2; q3]) q4 = inr r4 ∧ StatusCode r4 = 200%Z) →
  Present W domain token_ keyAuth s =
    (Ok tt,
     {| provider := withToken d "";
        trace := trace s ++
                 [Enter "Present";
                  Enter "login"; Enter "sendRequest"; Sent q1;
                  Enter "sendRequest"; Sent q2;
                  Enter "publish"; Enter "sendRequest"; Sent q3;
                  Enter "logout"] ++
                 (if (Token sess =? "")%string then [] else [Sent q4]) |}).
Proof.
  intros d d1 q1 q2 q3 q4 Hrec Hzone Hnew Hdo1 Hacc1 Hun Hdo2 Hacc2 Hdo3 Hacc3 Hdo4.
  assert (Hmu : ∀ d' method resource payload,
            Method (sendRequest_request d' method resource payload) = method ∧
            URL (sendRequest_request d' method resource payload)
              = dynBaseURL +:+ "/" +:+ resource).
  { intros d' method resource payload. unfold sendRequest_request.
    now destruct (0 <? String.length (token d'))%nat. }
  assert (Hnew1 : NewRequestError W "POST" (dynBaseURL +:+ "/Session") = None).
  { specialize (Hnew q1). destruct (Hmu d "POST" "Session"
      (JObject [("customer_name", JString (customerName d));
                ("user_name", JString (userName d));
                ("password", JString (password d))])) as [Hm Hu].
    fold q1 in Hm, Hu. rewrite Hm, Hu in Hnew. apply Hnew. in_list. }
  assert (Hnew2 : NewRequestError W "POST"
            (dynBaseURL +:+ "/" +:+ ("TXTRecord/" +:+ zone +:+ "/" +:+ fqdn +:+ "/"))
            = None).
  { specialize (Hnew q2). destruct (Hmu d1 "POST"
      ("TXTRecord/" +:+ zone +:+ "/" +:+ fqdn +:+ "/")
      (JObject [("rdata", JObject [("txtdata", JString value)]);
                ("ttl", JString (Itoa ttl))])) as [Hm Hu].
    fold q2 in Hm, Hu. rewrite Hm, Hu in Hnew. apply Hnew. in_list. }
  assert (Hnew3 : NewRequestError W "PUT"
            (dynBaseURL +:+ "/" +:+ zoneResource zone) = None).
  { specialize (Hnew q3). destruct (Hmu d1 "PUT" ("Zone/" +:+ zone +:+ "/")
      (JObject [("publish", JBool true); ("notes", JString addedNote)])) as [Hm Hu].
    fold q3 in Hm, Hu. rewrite Hm, Hu in Hnew. apply Hnew. in_list. }
  assert (Hnew4 : NewRequestError W "DELETE" (dynBaseURL +:+ "/Session") = None).
  { apply (Hnew q4). in_list. }
  unfold Present.
  rewrite (bind_ok _ _ s tt (after s [Enter "Present"])) by reflexivity.
  rewrite Hrec, Hzone.
  rewrite (bind_ok _ _ _ (zone) (after s [Enter "Present"])) by reflexivity.
  erewrite bind_ok; cycle 1.
  { apply (login_ok W _ r1 e1 sess Hnew1); simpl; [norm_sent|..]; assumption. }
  erewrite bind_ok; cycle 1.
  { apply (sendRequest_ok W _ _ _ _ r2 e2 Hnew2); simpl; [norm_sent|]; assumption. }
  erewrite bind_ok; cycle 1.
  { apply (publish_ok W _ _ _ r3 e3 Hnew3); simpl; [norm_sent|]; assumption. }
  unfold after. simpl.
  destruct (String.eqb_spec (Token sess) "") as [Hempty|Hne].
  - rewrite logout_noop by exact Hempty. unfold after. simpl.
    rewrite <- !app_assoc. simpl. f_equal. f_equal.
    unfold withToken, d. simpl. now rewrite Hempty.
  - destruct (Hdo4 Hne) as (r4 & Hdo4' & Hcode).
    erewrite logout_ok; [|exact Hne|exact Hnew4| |exact Hcode]; cycle 1.
    { simpl. norm_sent. exact Hdo4'. }
    simpl. rewrite <- !app_assoc. reflexivity.
Qed.

(** C1 for example.com in the world that answers every request 200 with
    a success envelope. *)
Lemma Present_success_witness :
  fst (Present Examples.allSuccess "example.com" "tok" "key"
         (Examples.start Examples.fresh)) = Ok tt.
Proof.
  pose proof (Present_success Examples.allSuccess (Examples.start Examples.fresh)
                "example.com" "tok" "key"
                "_acme-challenge.example.com." "digest-of-key" "example.com." 120
                {| StatusCode := 200; RespBody := Examples.successBody |}
                {| StatusCode := 200; RespBody := Examples.successBody |}
                {| StatusCode := 200; RespBody := Examples.successBody |}
                Examples.successEnvelope Examples.successEnvelope
                Examples.successEnvelope
                {| Token := "T0"; Version := "3.7.11" |}) as H.
  cbv zeta in H.
  assert (Hacc : accepted Examples.allSuccess
                   {| StatusCode := 200; RespBody := Examples.successBody |}
                   Examples.successEnvelope).
  { unfold accepted. simpl. repeat split; try lia; try reflexivity; discriminate. }
  rewrite H; try reflexivity; try exact Hacc.
  intros _. exists {| StatusCode := 200; RespBody := Examples.successBody |}.
  split; reflexivity.
Defined.

(** C2: when the login has succeeded and the step that changes the
    record returns an error, [Present] and [CleanUp] return that error
    and stop in the state the failed step left: neither [publish] nor
    [logout] is entered, nothing more is sent, and the receiver still
    holds the session token.  In [Present] the step is the [sendRequest]
    that creates the record; in [CleanUp] it is the DELETE, which fails
    when the request cannot be built, when the transport fails, or when
    the status is not 200. *)
Theorem mutation_failure_stops (W : World) (s : State)
    (domain token_ keyAuth fqdn value zone : string) (ttl : Z) :
  DNS01Record W domain keyAuth = (fqdn, value, ttl) →
  FindZoneByFqdn W fqdn = inr zone →
  (∀ s1 e s2,
     login W (after s [Enter "Present"]) = (Ok tt, s1) →
     sendRequest W "POST" (txtResource zone fqdn) (txtPayload value ttl) s1
       = (Err e, s2) →
     Present W domain token_ keyAuth s = (Err e, s2) ∧
     provider s2 = provider s1 ∧
     ∃ evs, trace s2 = trace s1 ++ evs ∧
            (Enter "publish" ∉ evs) ∧ (Enter "logout" ∉ evs) ∧
            (sent evs = [] ∨
             sent evs = [sendRequest_request (provider s1) "POST"
                           (txtResource zone fqdn) (txtPayload value ttl)])) ∧
  (∀ s1,
     login W (after s [Enter "CleanUp"]) = (Ok tt, s1) →
     let url := dynBaseURL +:+ "/" +:+ txtResource zone fqdn in
     let req := deleteRequest (token (provider s1)) url in
     (∀ msg, NewRequestError W "DELETE" url = Some msg →
             CleanUp W domain token_ keyAuth s = (Err (Foreign msg), s1)) ∧
     (NewRequestError W "DELETE" url = None →
      (∀ msg, Do W (sent (trace s1)) req = inl msg →
              CleanUp W domain token_ keyAuth s
                = (Err (Foreign msg), after s1 [Sent req])) ∧
      (∀ resp, Do W (sent (trace s1)) req = inr resp →
               StatusCode resp ≠ 200%Z →
               CleanUp W domain token_ keyAuth s
                 = (Err (DeleteRecordStatus (StatusCode resp)),
                    after s1 [Sent req])))).
Proof.
  intros Hrec Hzone. split.
  - intros s1 e s2 Hlogin Hsend.
    split; [|].
    { unfold Present.
      rewrite (bind_ok _ _ s tt (after s [Enter "Present"])) by reflexivity.
      rewrite Hrec, Hzone.
      rewrite (bind_ok _ _ _ zone (after s [Enter "Present"])) by reflexivity.
      rewrite (bind_ok _ _ _ _ _ Hlogin).
      now rewrite (bind_err _ _ _ _ _ Hsend). }
    destruct (NewRequestError W "POST"
                (dynBaseURL +:+ "/" +:+ txtResource zone fqdn)) as [msg|] eqn:Hnew.
    + rewrite (sendRequest_rejected W s1 _ _ _ msg Hnew) in Hsend.
      injection Hsend as _ <-. split; [reflexivity|].
      exists [Enter "sendRequest"]. split; [reflexivity|].
      split; [|split; [|now left]];
        intros Hin; apply list_elem_of_singleton in Hin; discriminate.
    + rewrite (sendRequest_run W s1 _ _ _ Hnew) in Hsend.
      injection Hsend as _ <-. split; [reflexivity|].
      eexists. split; [reflexivity|].
      split; [|split; [|now right]];
        intros Hin; apply elem_of_cons in Hin as [Hin|Hin]; try discriminate;
        apply list_elem_of_singleton in Hin; discriminate.
  - intros s1 Hlogin url req.
    assert (Hstart :
              CleanUp W domain token_ keyAuth s =
              (req0 <- NewRequest W "DELETE" url None ;;
               let req0 := HeaderSet "Content-Type" "application/json" req0 in
               d <- receiver ;;
               let req0 := HeaderSet "Auth-Token" (token d) req0 in
               resp <- clientDo W req0 ;;
               if negb (StatusCode resp =? 200)%Z
               then fail (DeleteRecordStatus (StatusCode resp))
               else (publish W zone removedNote ;; logout W)) s1).
    { unfold CleanUp.
      rewrite (bind_ok _ _ s tt (after s [Enter "CleanUp"])) by reflexivity.
      rewrite Hrec, Hzone.
      rewrite (bind_ok _ _ _ zone (after s [Enter "CleanUp"])) by reflexivity.
      now rewrite (bind_ok _ _ _ _ _ Hlogin). }
    rewrite Hstart. clear Hstart.
    split; [|intros Hnew; split].
    + intros msg Hnew. run. now rewrite Hnew.
    + intros msg Hdo. run. rewrite Hnew. simpl.
      fold (deleteRequest (token (provider s1)) url). fold req. now rewrite Hdo.
    + intros resp Hdo Hcode. run. rewrite Hnew. simpl.
      fold (deleteRequest (token (provider s1)) url). fold req. rewrite Hdo.
      now replace (StatusCode resp =? 200)%Z with false
        by (symmetry; now apply Z.eqb_neq).
Qed.

(** C2 in a world where the login succeeds and every later request is
    answered 500. *)
Lemma mutation_failure_stops_witness :
  let W := Examples.afterLogin 500 Examples.htmlBody in
  let s := Examples.start Examples.fresh in
  fst (Present W "example.com" "tok" "key" s) = Err (ServerError 500) ∧
  fst (CleanUp W "example.com" "tok" "key" s) = Err (DeleteRecordStatus 500).
Proof.
  cbv zeta.
  destruct (mutation_failure_stops (Examples.afterLogin 500 Examples.htmlBody)
              (Examples.start Examples.fresh) "example.com" "tok" "key"
              "_acme-challenge.example.com." "digest-of-key" "example.com." 120
              eq_refl eq_refl) as [HPresent HCleanUp].
  split.
  - pose (s1 := snd (login (Examples.afterLogin 500 Examples.htmlBody)
                       (after (Examples.start Examples.fresh) [Enter "Present"]))).
    pose (s2 := snd (sendRequest (Examples.afterLogin 500 Examples.htmlBody) "POST"
                       (txtResource "example.com." "_acme-challenge.example.com.")
                       (txtPayload "digest-of-key" 120) s1)).
    destruct (HPresent s1 (ServerError 500) s2) as [H _].
    + vm_compute. reflexivity.
    + vm_compute. reflexivity.
    + now rewrite H.
  - pose (s1 := snd (login (Examples.afterLogin 500 Examples.htmlBody)
                       (after (Examples.start Examples.fresh) [Enter "CleanUp"]))).
    destruct (HCleanUp s1) as [_ H].
    + vm_compute. reflexivity.
    + destruct (H eq_refl) as [_ H500].
      rewrite (H500 {| StatusCode := 500; RespBody := Examples.htmlBody |}).
      * reflexivity.
      * vm_compute. reflexivity.
      * simpl. lia.
Defined.

(** ** Which requests go through [sendRequest] *)

Lemma direct_app evs evs' inside :
  ∃ inside', direct inside (evs ++ evs') = direct inside evs ++ direct inside' evs'.
Proof.
  revert inside. induction evs as [|ev evs IH]; intros inside; simpl.
  - now exists inside.
  - destruct ev as [method|req].
    + apply IH.
    + destruct (IH false) as [inside' Heq]. exists inside'.
      destruct inside; simpl; now rewrite Heq.
Qed.

Lemma onlyDeleteDirect_nil : onlyDeleteDirect [].
Proof. intros inside. constructor. Qed.

Lemma onlyDeleteDirect_app evs evs' :
  onlyDeleteDirect evs → onlyDeleteDirect evs' → onlyDeleteDirect (evs ++ evs').
Proof.
  intros H H' inside. destruct (direct_app evs evs' inside) as [inside' ->].
  apply Forall_app. split; [apply H | apply H'].
Qed.

Lemma onlyDeleteDirect_enter method : onlyDeleteDirect [Enter method].
Proof. intros inside. constructor. Qed.

Lemma onlyDeleteDirect_delete req :
  Method req = "DELETE" → onlyDeleteDirect [Sent req].
Proof.
  intros Hm inside. destruct inside; simpl; repeat constructor. exact Hm.
Qed.

Lemma onlyDeleteDirect_sendRequest req :
  onlyDeleteDirect [Enter "sendRequest"; Sent req].
Proof. intros inside. constructor. Qed.

Section Emits.

Context (W : World).

Lemma emits_ret {A} (a : A) : emits (ret a) onlyDeleteDirect.
Proof.
  intros s. exists []. simpl. now rewrite app_nil_r; split; [|apply onlyDeleteDirect_nil].
Qed.

Lemma emits_fail {A} e : emits (@fail A e) onlyDeleteDirect.
Proof.
  intros s. exists []. simpl. now rewrite app_nil_r; split; [|apply onlyDeleteDirect_nil].
Qed.

(** The continuation is needed only at the values the method returns. *)
Lemma emits_bind_from {A B} (m : M A) (k : A → M B) :
  emits m onlyDeleteDirect →
  (∀ a, (∃ s s', m s = (Ok a, s')) → emits (k a) onlyDeleteDirect) →
  emits (bind m k) onlyDeleteDirect.
Proof.
  intros Hm Hk s. unfold bind.
  destruct (Hm s) as (evs & Htr & Hevs).
  destruct (m s) as [[a|e] s1] eqn:Hms; simpl in Htr.
  - destruct (Hk a (ex_intro _ s (ex_intro _ s1 Hms)) s1) as (evs' & Htr' & Hevs').
    exists (evs ++ evs'). rewrite Htr', Htr, app_assoc.
    split; [reflexivity|]. now apply onlyDeleteDirect_app.
  - now exists evs.
Qed.

Lemma emits_bind {A B} (m : M A) (k : A → M B) :
  emits m onlyDeleteDirect → (∀ a, emits (k a) onlyDeleteDirect) →
  emits (bind m k) onlyDeleteDirect.
Proof. intros Hm Hk. apply emits_bind_from; [exact Hm | intros a _; apply Hk]. Qed.

Lemma emits_foreign {A} (r : string + A) : emits (foreign r) onlyDeleteDirect.
Proof. destruct r; [apply emits_fail | apply emits_ret]. Qed.

Lemma emits_enter method : emits (enter method) onlyDeleteDirect.
Proof.
  intros s. exists [Enter method]. split; [reflexivity|].
  apply onlyDeleteDirect_enter.
Qed.

Lemma emits_receiver : emits receiver onlyDeleteDirect.
Proof.
  intros s. exists []. simpl. now rewrite app_nil_r; split; [|apply onlyDeleteDirect_nil].
Qed.

Lemma emits_setToken tok : emits (setToken tok) onlyDeleteDirect.
Proof.
  intros s. exists []. simpl. now rewrite app_nil_r; split; [|apply onlyDeleteDirect_nil].
Qed.

Lemma emits_NewRequest method url body :
  emits (NewRequest W method url body) onlyDeleteDirect.
Proof.
  unfold NewRequest. destruct (NewRequestError W method url);
    [apply emits_fail | apply emits_ret].
Qed.

Lemma NewRequest_Method method url body req :
  (∃ s s', NewRequest W method url body s = (Ok req, s')) → Method req = method.
Proof.
  intros (s & s' & H). unfold NewRequest in H.
  destruct (NewRequestError W method url); [discriminate|].
  unfold ret in H. now injection H as <- _.
Qed.

Lemma emits_clientDo req :
  Method req = "DELETE" → emits (clientDo W req) onlyDeleteDirect.
Proof.
  intros Hm s. exists [Sent req]. unfold clientDo.
  split; [now destruct (Do W _ _)|]. now apply onlyDeleteDirect_delete.
Qed.

Lemma emits_sendRequest method resource payload :
  emits (sendRequest W method resource payload) onlyDeleteDirect.
Proof.
  intros s.
  destruct (NewRequestError W method (dynBaseURL +:+ "/" +:+ resource))
    as [msg|] eqn:Hnew.
  - rewrite (sendRequest_rejected W s _ _ _ msg Hnew).
    eexists. split; [reflexivity|]. apply onlyDeleteDirect_enter.
  - rewrite (sendRequest_run W s _ _ _ Hnew).
    eexists. split; [reflexivity|]. apply onlyDeleteDirect_sendRequest.
Qed.

Lemma emits_login : emits (login W) onlyDeleteDirect.
Proof.
  unfold login.
  apply emits_bind; [apply emits_enter|intros _].
  apply emits_bind; [apply emits_receiver|intros d].
  apply emits_bind; [apply emits_sendRequest|intros dynRes].
  apply emits_bind; [apply emits_foreign|intros sess].
  apply emits_setToken.
Qed.

Lemma emits_logout : emits (logout W) onlyDeleteDirect.
Proof.
  unfold logout.
  apply emits_bind; [apply emits_enter|intros _].
  apply emits_bind; [apply emits_receiver|intros d].
  destruct (String.length (token d) =? 0)%nat; [apply emits_ret|].
  apply emits_bind_from; [apply emits_NewRequest|intros req Hreq].
  apply NewRequest_Method in Hreq.
  apply emits_bind; [now apply emits_clientDo|intros resp].
  destruct (negb _); [apply emits_fail | apply emits_setToken].
Qed.

Lemma emits_publish zone notes : emits (publish W zone notes) onlyDeleteDirect.
Proof.
  unfold publish.
  apply emits_bind; [apply emits_enter|intros _].
  apply emits_bind; [apply emits_sendRequest|intros _].
  apply emits_ret.
Qed.

Lemma emits_Present domain token_ keyAuth :
  emits (Present W domain token_ keyAuth) onlyDeleteDirect.
Proof.
  unfold Present.
  apply emits_bind; [apply emits_enter|intros _].
  destruct (DNS01Record W domain keyAuth) as [[fqdn value] ttl].
  apply emits_bind; [apply emits_foreign|intros authZone].
  apply emits_bind; [apply emits_login|intros _].
  apply emits_bind; [apply emits_sendRequest|intros _].
  apply emits_bind; [apply emits_publish|intros _].
  apply emits_logout.
Qed.

Lemma emits_CleanUp domain token_ keyAuth :
  emits (CleanUp W domain token_ keyAuth) onlyDeleteDirect.
Proof.
  unfold CleanUp.
  apply emits_bind; [apply emits_enter|intros _].
  destruct (DNS01Record W domain keyAuth) as [[fqdn value] ttl].
  apply emits_bind; [apply emits_foreign|intros authZone].
  apply emits_bind; [apply emits_login|intros _].
  apply emits_bind_from; [apply emits_NewRequest|intros req Hreq].
  apply NewRequest_Method in Hreq.
  apply emits_bind; [apply emits_receiver|intros d].
  apply emits_bind; [now apply emits_clientDo|intros resp].
  destruct (negb _); [apply emits_fail|].
  apply emits_bind; [apply emits_publish|intros _].
  apply emits_logout.
Qed.

End Emits.

(** C4, as the code has it: in [Present] and in [CleanUp] the only
    requests that reach the client outside [sendRequest] are DELETE
    requests (the session DELETE of [logout] and the record DELETE of
    [CleanUp]); every other request goes through [sendRequest].  The
    record DELETE of [CleanUp] is judged by its status code alone: with
    200 [CleanUp] goes on to publish and log out, whatever the body of
    the response is, and with any other code it returns the error that
    names the code. *)
Theorem record_delete_is_direct (W : World) :
  (∀ domain token_ keyAuth s,
     ∃ evs, trace (snd (Present W domain token_ keyAuth s)) = trace s ++ evs ∧
            Forall (λ req, Method req = "DELETE") (direct false evs)) ∧
  (∀ domain token_ keyAuth s,
     ∃ evs, trace (snd (CleanUp W domain token_ keyAuth s)) = trace s ++ evs ∧
            Forall (λ req, Method req = "DELETE") (direct false evs)) ∧
  (∀ domain token_ keyAuth s fqdn value ttl zone s1 resp,
     DNS01Record W domain keyAuth = (fqdn, value, ttl) →
     FindZoneByFqdn W fqdn = inr zone →
     login W (after s [Enter "CleanUp"]) = (Ok tt, s1) →
     let url := dynBaseURL +:+ "/" +:+ txtResource zone fqdn in
     let req := deleteRequest (token (provider s1)) url in
     NewRequestError W "DELETE" url = None →
     Do W (sent (trace s1)) req = inr resp →
     CleanUp W domain token_ keyAuth s =
       if (StatusCode resp =? 200)%Z
       then (publish W zone removedNote ;; logout W) (after s1 [Sent req])
       else (Err (DeleteRecordStatus (StatusCode resp)), after s1 [Sent req])).
Proof.
  split; [|split].
  - intros domain token_ keyAuth s.
    destruct (emits_Present W domain token_ keyAuth s) as (evs & Htr & Hevs).
    exists evs. split; [exact Htr | apply Hevs].
  - intros domain token_ keyAuth s.
    destruct (emits_CleanUp W domain token_ keyAuth s) as (evs & Htr & Hevs).
    exists evs. split; [exact Htr | apply Hevs].
  - intros domain token_ keyAuth s fqdn value ttl zone s1 resp
      Hrec Hzone Hlogin url req Hnew Hdo.
    unfold CleanUp.
    rewrite (bind_ok _ _ s tt (after s [Enter "CleanUp"])) by reflexivity.
    rewrite Hrec, Hzone.
    rewrite (bind_ok _ _ _ zone (after s [Enter "CleanUp"])) by reflexivity.
    rewrite (bind_ok _ _ _ _ _ Hlogin).
    run. fold (txtResource zone fqdn). fold url. rewrite Hnew. simpl.
    fold (deleteRequest (token (provider s1)) url). fold req. rewrite Hdo.
    now destruct (StatusCode resp =? 200)%Z.
Qed.

(** C4 as stated fails: the record DELETE of [CleanUp] is answered 200
    with a body that decodes to a failure envelope, and [CleanUp] returns
    success; the DELETE requests for the record and for the session reach
    the client outside [sendRequest]. *)
Lemma CleanUp_ignores_failure_envelope :
  let W := Examples.deleteReportsFailure in
  let s := Examples.start Examples.fresh in
  let s1 := snd (login W (after s [Enter "CleanUp"])) in
  let req := deleteRequest "T0"
               (dynBaseURL +:+ "/" +:+
                txtResource "example.com." "_acme-challenge.example.com.") in
  Do W (sent (trace s1)) req
    = inr {| StatusCode := 200; RespBody := Examples.failureBody |} ∧
  Decode W Examples.failureBody = inr Examples.failureEnvelope ∧
  Status Examples.failureEnvelope = "failure" ∧
  fst (CleanUp W "example.com" "tok" "key" s) = Ok tt ∧
  fst (CleanUp W "example.com" "tok" "key" s)
    ≠ Err (APIFailure (Messages Examples.failureEnvelope)) ∧
  direct false (trace (snd (CleanUp W "example.com" "tok" "key" s)))
    = [req; deleteRequest "T0" (dynBaseURL +:+ "/Session")].
Proof.
  cbv zeta. split; [reflexivity|]. split; [reflexivity|]. split; [reflexivity|].
  assert (H : fst (CleanUp Examples.deleteReportsFailure "example.com" "tok" "key"
                     (Examples.start Examples.fresh)) = Ok tt)
    by (vm_compute; reflexivity).
  split; [exact H|]. split; [rewrite H; discriminate|].
  vm_compute. reflexivity.
Qed.

(** C4 (as the code has it) in the same world: the record DELETE is
    answered 200, and [CleanUp] is what publish and logout make of the
    state after it. *)
Lemma record_delete_is_direct_witness :
  let W := Examples.deleteReportsFailure in
  let s := Examples.start Examples.fresh in
  let s1 := snd (login W (after s [Enter "CleanUp"])) in
  let req := deleteRequest "T0"
               (dynBaseURL +:+ "/" +:+
                txtResource "example.com." "_acme-challenge.example.com.") in
  CleanUp W "example.com" "tok" "key" s
    = (publish W "example.com." removedNote ;; logout W) (after s1 [Sent req]).
Proof.
  cbv zeta.
  refine (proj2 (proj2 (record_delete_is_direct Examples.deleteReportsFailure))
            "example.com" "tok" "key" (Examples.start Examples.fresh)
            "_acme-challenge.example.com." "digest-of-key" 120 "example.com."
            _ {| StatusCode := 200; RespBody := Examples.failureBody |}
            eq_refl eq_refl _ eq_refl eq_refl).
  vm_compute. reflexivity.
Defined.

(** * Further properties *)

(** ** More on the request primitive *)

(** X1: [sendRequest] returns an envelope exactly when the request could
    be built, the client answered, and the response is taken as a
    success: a status code below 400 other than 307 and a body that
    decodes to an envelope whose status is not "failure".  Any other
    status of the envelope, "incomplete" too, is a success. *)
Theorem sendRequest_Ok_iff (W : World) (s : State) (method resource : string)
    (payload : json) (dynRes : dynResponse) :
  fst (sendRequest W method resource payload s) = Ok dynRes ↔
  NewRequestError W method (dynBaseURL +:+ "/" +:+ resource) = None ∧
  ∃ resp,
    Do W (sent (trace s))
       (sendRequest_request (provider s) method resource payload) = inr resp ∧
    (StatusCode resp < 400)%Z ∧ StatusCode resp ≠ 307%Z ∧
    Decode W (RespBody resp) = inr dynRes ∧ Status dynRes ≠ "failure".
Proof.
  destruct (NewRequestError W method (dynBaseURL +:+ "/" +:+ resource))
    as [msg|] eqn:Hnew.
  - rewrite (sendRequest_rejected W s _ _ _ msg Hnew). simpl.
    split; [discriminate | intros [? _]; discriminate].
  - rewrite (sendRequest_run W s _ _ _ Hnew). simpl.
    destruct (Do W _ _) as [msg|resp].
    + split; [discriminate | intros (_ & resp & Hresp & _); discriminate].
    + split.
      * intros Hok. split; [reflexivity|]. exists resp. split; [reflexivity|].
        apply (classify_Ok _ _ _ Hok).
      * intros (_ & resp' & Hresp & Hacc). injection Hresp as <-.
        apply classify_accepted. exact Hacc.
Qed.

(** X2: a response with a status code from 400 to 499 gives the client
    error with that code and the messages of the envelope, whatever the
    status of the envelope is; when the body does not decode there are no
    messages to report and the decoder's error is returned. *)
Theorem sendRequest_client_error (W : World) (s : State) (method resource : string)
    (payload : json) (resp : Response) :
  NewRequestError W method (dynBaseURL +:+ "/" +:+ resource) = None →
  Do W (sent (trace s))
     (sendRequest_request (provider s) method resource payload) = inr resp →
  (400 ≤ StatusCode resp < 500)%Z →
  fst (sendRequest W method resource payload s) =
    match Decode W (RespBody resp) with
    | inr dynRes => Err (ClientError (StatusCode resp) (Messages dynRes))
    | inl msg => Err (Foreign msg)
    end.
Proof.
  intros Hnew Hdo [Hlo Hhi].
  rewrite sendRequest_run by exact Hnew. simpl. rewrite Hdo. unfold classify.
  replace (500 <=? StatusCode resp)%Z with false by (symmetry; apply Z.leb_gt; lia).
  destruct (Decode W (RespBody resp)) as [msg|dynRes]; [reflexivity|].
  now replace (400 <=? StatusCode resp)%Z with true by (symmetry; apply Z.leb_le; lia).
Qed.

(** X2 at a 404 whose body is a success envelope. *)
Lemma sendRequest_client_error_witness :
  fst (sendRequest (Examples.always 404 Examples.successBody) "PUT"
         "Zone/example.com./" (publishPayload addedNote)
         (Examples.start Examples.fresh))
    = Err (ClientError 404 "[]").
Proof.
  refine (sendRequest_client_error (Examples.always 404 Examples.successBody)
            (Examples.start Examples.fresh) "PUT" "Zone/example.com./"
            (publishPayload addedNote)
            {| StatusCode := 404; RespBody := Examples.successBody |}
            eq_refl eq_refl _).
  simpl. lia.
Defined.

(** X3: whatever happens, [sendRequest] leaves the receiver as it was
    and hands at most one request to the client: there is no retry, and
    no request at all when the request cannot be built. *)
Theorem sendRequest_once (W : World) (s : State) (method resource : string)
    (payload : json) :
  provider (snd (sendRequest W method resource payload s)) = provider s ∧
  ∃ evs, trace (snd (sendRequest W method resource payload s)) = trace s ++ evs ∧
         (sent evs = [] ∨
          sent evs = [sendRequest_request (provider s) method resource payload]) ∧
         (sent evs = [] ↔
          NewRequestError W method (dynBaseURL +:+ "/" +:+ resource) ≠ None).
Proof.
  destruct (NewRequestError W method (dynBaseURL +:+ "/" +:+ resource))
    as [msg|] eqn:Hnew.
  - rewrite (sendRequest_rejected W s _ _ _ msg Hnew). simpl.
    split; [reflexivity|]. exists [Enter "sendRequest"].
    split; [reflexivity|]. split; [now left|]. split; [discriminate|reflexivity].
  - rewrite (sendRequest_run W s _ _ _ Hnew). simpl.
    split; [reflexivity|]. eexists. split; [reflexivity|].
    split; [now right|]. split; [discriminate|congruence].
Qed.

(** ** More on the session *)

Lemma withToken_same d : withToken d (token d) = d.
Proof. now destruct d. Qed.

Lemma login_cases W s :
  (∃ e, fst (login W s) = Err e ∧ provider (snd (login W s)) = provider s) ∨
  (∃ sess, fst (login W s) = Ok tt ∧
           provider (snd (login W s)) = withToken (provider s) (Token sess)).
Proof.
  destruct (NewRequestError W "POST" (dynBaseURL +:+ "/Session")) as [msg|] eqn:Hnew.
  - rewrite (login_rejected W s msg Hnew). left. now exists (Foreign msg).
  - rewrite (login_run W s Hnew). cbv zeta.
    destruct (Do W _ _) as [msg|resp]; [left; now exists (Foreign msg)|].
    destruct (classify W resp) as [dynRes|e]; [|left; now exists e].
    destruct (UnmarshalSession W (Data dynRes)) as [msg|sess];
      [left; now exists (Foreign msg)|].
    right. now exists sess.
Qed.

Lemma logout_cases W s :
  (∃ e, fst (logout W s) = Err e ∧ provider (snd (logout W s)) = provider s ∧
        token (provider s) ≠ "") ∨
  (fst (logout W s) = Ok tt ∧
   provider (snd (logout W s)) = withToken (provider s) "").
Proof.
  destruct (String.eqb_spec (token (provider s)) "") as [Hempty|Hne].
  - rewrite (logout_noop W s Hempty). right. simpl.
    split; [reflexivity|]. rewrite <- Hempty. symmetry. apply withToken_same.
  - destruct (NewRequestError W "DELETE" (dynBaseURL +:+ "/Session"))
      as [msg|] eqn:Hnew.
    + rewrite (logout_rejected W s msg Hne Hnew). left. now exists (Foreign msg).
    + rewrite (logout_run W s Hne Hnew). cbv zeta.
      destruct (Do W _ _) as [msg|resp]; [left; now exists (Foreign msg)|].
      destruct (StatusCode resp =? 200)%Z.
      * right. now split.
      * left. now exists (DeleteSessionStatus (StatusCode resp)).
Qed.

Lemma logout_Ok W s s' :
  logout W s = (Ok tt, s') → provider s' = withToken (provider s) "".
Proof.
  intros H. destruct (logout_cases W s) as [(e & He & _)|[_ Hp]].
  - rewrite H in He. discriminate.
  - now rewrite H in Hp.
Qed.

Lemma login_Err W s s' e :
  login W s = (Err e, s') → provider s' = provider s.
Proof.
  intros H. destruct (login_cases W s) as [(e' & _ & Hp)|(sess & Hok & _)].
  - now rewrite H in Hp.
  - rewrite H in Hok. discriminate.
Qed.

(** X4: when [login] returns an error, whatever the error is, the
    receiver is as it was before the call: a token held before is still
    held.  When it returns success, only the token has changed. *)
Theorem login_failure_keeps_receiver (W : World) (s s' : State) :
  (∀ e, login W s = (Err e, s') → provider s' = provider s) ∧
  (login W s = (Ok tt, s') →
   credentials (provider s') = credentials (provider s)).
Proof.
  split.
  - intros e. apply login_Err.
  - intros H. destruct (login_cases W s) as [(e & He & _)|(sess & _ & Hp)].
    + rewrite H in He. discriminate.
    + rewrite H in Hp. simpl in Hp. now rewrite Hp.
Qed.

Lemma login_failure_keeps_receiver_witness :
  provider (snd (login (Examples.always 503 Examples.htmlBody)
                   (Examples.start (withToken Examples.fresh "T0"))))
    = withToken Examples.fresh "T0".
Proof.
  apply (proj1 (login_failure_keeps_receiver
                  (Examples.always 503 Examples.htmlBody)
                  (Examples.start (withToken Examples.fresh "T0")) _)
           (ServerError 503)).
  vm_compute. reflexivity.
Defined.

(** X5: [logout] is idempotent: after a [logout] that returned success,
    the token is empty, and a second [logout] returns success without
    sending anything. *)
Theorem logout_twice (W : World) (s s1 : State) :
  logout W s = (Ok tt, s1) →
  token (provider s1) = "" ∧
  logout W s1 = (Ok tt, after s1 [Enter "logout"]).
Proof.
  intros H. apply logout_Ok in H.
  assert (Htok : token (provider s1) = "") by now rewrite H.
  split; [exact Htok|]. now apply logout_noop.
Qed.

Lemma logout_twice_witness :
  let s1 := snd (logout Examples.allSuccess
                   (Examples.start (withToken Examples.fresh "T0"))) in
  logout Examples.allSuccess s1 = (Ok tt, after s1 [Enter "logout"]).
Proof.
  cbv zeta.
  refine (proj2 (logout_twice Examples.allSuccess
                   (Examples.start (withToken Examples.fresh "T0")) _ _)).
  vm_compute. reflexivity.
Defined.

(** X6: a [login] and a [logout] that both return success leave the
    receiver with the credentials it had and with an empty token,
    whatever token it held before and whatever token the login
    received. *)
Theorem login_logout (W : World) (s s1 s2 : State) :
  login W s = (Ok tt, s1) →
  logout W s1 = (Ok tt, s2) →
  provider s2 = withToken (provider s) "".
Proof.
  intros Hin Hout. apply logout_Ok in Hout. rewrite Hout.
  destruct (login_cases W s) as [(e & He & _)|(sess & _ & Hp)].
  - rewrite Hin in He. discriminate.
  - rewrite Hin in Hp. simpl in Hp. now rewrite Hp.
Qed.

Lemma login_logout_witness :
  let s1 := snd (login Examples.allSuccess (Examples.start Examples.fresh)) in
  provider (snd (logout Examples.allSuccess s1)) = Examples.fresh.
Proof.
  cbv zeta.
  apply (login_logout Examples.allSuccess (Examples.start Examples.fresh)
           (snd (login Examples.allSuccess (Examples.start Examples.fresh)))).
  - vm_compute. reflexivity.
  - vm_compute. reflexivity.
Defined.

(** ** More on the challenge provider: the ways to fail *)

Lemma bind_Ok_inv {A B} (m : M A) (k : A → M B) s b s' :
  bind m k s = (Ok b, s') → ∃ a s1, m s = (Ok a, s1) ∧ k a s1 = (Ok b, s').
Proof.
  unfold bind. destruct (m s) as [[a|e] s1]; [|discriminate].
  intros H. now exists a, s1.
Qed.

Lemma Present_steps W s domain token_ keyAuth fqdn value ttl :
  DNS01Record W domain keyAuth = (fqdn, value, ttl) →
  Present W domain token_ keyAuth s =
    (authZone <- foreign (FindZoneByFqdn W fqdn) ;;
     login W ;;
     _ <- sendRequest W "POST" (txtResource authZone fqdn) (txtPayload value ttl) ;;
     publish W authZone addedNote ;;
     logout W) (after s [Enter "Present"]).
Proof.
  intros Hrec. unfold Present.
  rewrite (bind_ok _ _ s tt (after s [Enter "Present"])) by reflexivity.
  now rewrite Hrec.
Qed.

Lemma CleanUp_steps W s domain token_ keyAuth fqdn value ttl :
  DNS01Record W domain keyAuth = (fqdn, value, ttl) →
  CleanUp W domain token_ keyAuth s =
    (authZone <- foreign (FindZoneByFqdn W fqdn) ;;
     login W ;;
     req <- NewRequest W "DELETE"
              (dynBaseURL +:+ "/" +:+ txtResource authZone fqdn) None ;;
     let req := HeaderSet "Content-Type" "application/json" req in
     d <- receiver ;;
     let req := HeaderSet "Auth-Token" (token d) req in
     resp <- clientDo W req ;;
     if negb (StatusCode resp =? 200)%Z
     then fail (DeleteRecordStatus (StatusCode resp))
     else (publish W authZone removedNote ;; logout W))
    (after s [Enter "CleanUp"]).
Proof.
  intros Hrec. unfold CleanUp.
  rewrite (bind_ok _ _ s tt (after s [Enter "CleanUp"])) by reflexivity.
  now rewrite Hrec.
Qed.

(** The record DELETE of [CleanUp], answered 200, from the state the
    login left. *)
Lemma CleanUp_delete_ok W s1 zone fqdn resp (k : M unit) :
  NewRequestError W "DELETE" (dynBaseURL +:+ "/" +:+ txtResource zone fqdn) = None →
  Do W (sent (trace s1))
     (deleteRequest (token (provider s1))
        (dynBaseURL +:+ "/" +:+ txtResource zone fqdn)) = inr resp →
  StatusCode resp = 200%Z →
  (req <- NewRequest W "DELETE"
            (dynBaseURL +:+ "/" +:+ txtResource zone fqdn) None ;;
   let req := HeaderSet "Content-Type" "application/json" req in
   d <- receiver ;;
   let req := HeaderSet "Auth-Token" (token d) req in
   resp <- clientDo W req ;;
   if negb (StatusCode resp =? 200)%Z
   then fail (DeleteRecordStatus (StatusCode resp))
   else k) s1
  = k (after s1 [Sent (deleteRequest (token (provider s1))
                         (dynBaseURL +:+ "/" +:+ txtResource zone fqdn))]).
Proof.
  intros Hnew Hdo Hcode. run. rewrite Hnew. simpl.
  fold (deleteRequest (token (provider s1))
          (dynBaseURL +:+ "/" +:+ txtResource zone fqdn)).
  rewrite Hdo, Hcode. reflexivity.
Qed.

(** X7: when the zone of the record cannot be found, [Present] and
    [CleanUp] return the resolver's error as it is, before any session is
    opened: [login] is not entered, nothing is sent and the receiver is
    untouched. *)
Theorem zone_failure_aborts (W : World) (s : State)
    (domain token_ keyAuth msg : string) :
  FindZoneByFqdn W (DNS01Record W domain keyAuth).1.1 = inl msg →
  Present W domain token_ keyAuth s
    = (Err (Foreign msg), after s [Enter "Present"]) ∧
  CleanUp W domain token_ keyAuth s
    = (Err (Foreign msg), after s [Enter "CleanUp"]).
Proof.
  destruct (DNS01Record W domain keyAuth) as [[fqdn value] ttl] eqn:Hrec.
  simpl. intros Hzone. split.
  - rewrite (Present_steps W s _ _ _ _ _ _ Hrec). now rewrite Hzone.
  - rewrite (CleanUp_steps W s _ _ _ _ _ _ Hrec). now rewrite Hzone.
Qed.

(** X8: when [login] fails, [Present] and [CleanUp] return its error and
    stop there: the receiver is as it was before the call, and no request
    about the record or the zone is made. *)
Theorem login_failure_aborts (W : World) (s : State)
    (domain token_ keyAuth zone : string) :
  FindZoneByFqdn W (DNS01Record W domain keyAuth).1.1 = inr zone →
  (∀ e s1, login W (after s [Enter "Present"]) = (Err e, s1) →
           Present W domain token_ keyAuth s = (Err e, s1) ∧
           provider s1 = provider s) ∧
  (∀ e s1, login W (after s [Enter "CleanUp"]) = (Err e, s1) →
           CleanUp W domain token_ keyAuth s = (Err e, s1) ∧
           provider s1 = provider s).
Proof.
  destruct (DNS01Record W domain keyAuth) as [[fqdn value] ttl] eqn:Hrec.
  simpl. intros Hzone. split; intros e s1 Hlogin.
  - split; [|apply (login_Err _ _ _ _ Hlogin)].
    rewrite (Present_steps W s _ _ _ _ _ _ Hrec), Hzone.
    rewrite (bind_ok _ _ _ zone (after s [Enter "Present"])) by reflexivity.
    now rewrite (bind_err _ _ _ _ _ Hlogin).
  - split; [|apply (login_Err _ _ _ _ Hlogin)].
    rewrite (CleanUp_steps W s _ _ _ _ _ _ Hrec), Hzone.
    rewrite (bind_ok _ _ _ zone (after s [Enter "CleanUp"])) by reflexivity.
    now rewrite (bind_err _ _ _ _ _ Hlogin).
Qed.

Lemma zone_failure_aborts_witness :
  let W := Failures.noZone Examples.allSuccess in
  let s := Examples.start Examples.fresh in
  sent (trace (snd (Present W "example.com" "tok" "key" s))) = [] ∧
  sent (trace (snd (CleanUp W "example.com" "tok" "key" s))) = [].
Proof.
  cbv zeta.
  destruct (zone_failure_aborts (Failures.noZone Examples.allSuccess)
              (Examples.start Examples.fresh) "example.com" "tok" "key"
              _ eq_refl) as [HP HC].
  rewrite HP, HC. split; reflexivity.
Defined.

Lemma login_failure_aborts_witness :
  let W := Examples.always 503 Examples.htmlBody in
  let s := Examples.start Examples.fresh in
  fst (Present W "example.com" "tok" "key" s) = Err (ServerError 503) ∧
  fst (CleanUp W "example.com" "tok" "key" s) = Err (ServerError 503).
Proof.
  cbv zeta.
  destruct (login_failure_aborts (Examples.always 503 Examples.htmlBody)
              (Examples.start Examples.fresh) "example.com" "tok" "key"
              "example.com." eq_refl) as [HP HC].
  split.
  - destruct (HP (ServerError 503)
                (snd (login (Examples.always 503 Examples.htmlBody)
                        (after (Examples.start Examples.fresh) [Enter "Present"]))))
      as [H _]; [vm_compute; reflexivity|]. now rewrite H.
  - destruct (HC (ServerError 503)
                (snd (login (Examples.always 503 Examples.htmlBody)
                        (after (Examples.start Examples.fresh) [Enter "CleanUp"]))))
      as [H _]; [vm_compute; reflexivity|]. now rewrite H.
Defined.

Lemma sendRequest_cases W s method resource payload :
  ∃ evs, snd (sendRequest W method resource payload s) = after s evs ∧
         (evs = [Enter "sendRequest"] ∨
          evs = [Enter "sendRequest";
                 Sent (sendRequest_request (provider s) method resource payload)]).
Proof.
  destruct (NewRequestError W method (dynBaseURL +:+ "/" +:+ resource))
    as [msg|] eqn:Hnew.
  - rewrite (sendRequest_rejected W s _ _ _ msg Hnew). eexists. split; [reflexivity|].
    now left.
  - rewrite (sendRequest_run W s _ _ _ Hnew). eexists. split; [reflexivity|].
    now right.
Qed.

Lemma publish_cases W s zone notes :
  ∃ evs, snd (publish W zone notes s) = after s evs ∧
         (evs = [Enter "publish"; Enter "sendRequest"] ∨
          evs = [Enter "publish"; Enter "sendRequest";
                 Sent (sendRequest_request (provider s) "PUT" (zoneResource zone)
                         (publishPayload notes))]).
Proof.
  destruct (NewRequestError W "PUT" (dynBaseURL +:+ "/" +:+ zoneResource zone))
    as [msg|] eqn:Hnew.
  - rewrite (publish_rejected W s _ _ msg Hnew). eexists. split; [reflexivity|].
    now left.
  - rewrite (publish_run W s _ _ Hnew). eexists. split; [reflexivity|].
    now right.
Qed.

Lemma sendRequest_provider W s method resource payload :
  provider (snd (sendRequest W method resource payload s)) = provider s.
Proof.
  destruct (sendRequest_cases W s method resource payload) as (evs & -> & _).
  reflexivity.
Qed.

Lemma publish_provider W s zone notes :
  provider (snd (publish W zone notes s)) = provider s.
Proof.
  destruct (publish_cases W s zone notes) as (evs & -> & _). reflexivity.
Qed.

(** X9: when the record has been changed and [publish] fails, [Present]
    and [CleanUp] return the error of [publish] and stop: [logout] is
    not entered, the only request made after the change is the PUT, if
    any (the change is not taken back), and the receiver still
    holds the token of the session. *)
Theorem publish_failure_stops (W : World) (s : State)
    (domain token_ keyAuth fqdn value zone : string) (ttl : Z) :
  DNS01Record W domain keyAuth = (fqdn, value, ttl) →
  FindZoneByFqdn W fqdn = inr zone →
  (∀ s1 dynRes s2 e s3,
     login W (after s [Enter "Present"]) = (Ok tt, s1) →
     sendRequest W "POST" (txtResource zone fqdn) (txtPayload value ttl) s1
       = (Ok dynRes, s2) →
     publish W zone addedNote s2 = (Err e, s3) →
     Present W domain token_ keyAuth s = (Err e, s3) ∧
     provider s3 = provider s1 ∧
     ∃ evs, trace s3 = trace s2 ++ evs ∧ (Enter "logout" ∉ evs) ∧
            Forall (λ req, Method req = "PUT") (sent evs)) ∧
  (∀ s1 resp e s3,
     login W (after s [Enter "CleanUp"]) = (Ok tt, s1) →
     let req := deleteRequest (token (provider s1))
                  (dynBaseURL +:+ "/" +:+ txtResource zone fqdn) in
     NewRequestError W "DELETE" (dynBaseURL +:+ "/" +:+ txtResource zone fqdn) = None →
     Do W (sent (trace s1)) req = inr resp →
     StatusCode resp = 200%Z →
     publish W zone removedNote (after s1 [Sent req]) = (Err e, s3) →
     CleanUp W domain token_ keyAuth s = (Err e, s3) ∧
     provider s3 = provider s1 ∧
     ∃ evs, trace s3 = trace s1 ++ Sent req :: evs ∧ (Enter "logout" ∉ evs) ∧
            Forall (λ req, Method req = "PUT") (sent evs)).
Proof.
  intros Hrec Hzone.
  assert (Hpub : ∀ s2 notes e s3,
            publish W zone notes s2 = (Err e, s3) →
            provider s3 = provider s2 ∧
            ∃ evs, trace s3 = trace s2 ++ evs ∧ (Enter "logout" ∉ evs) ∧
                   Forall (λ req, Method req = "PUT") (sent evs)).
  { intros s2 notes e s3 H.
    destruct (publish_cases W s2 zone notes) as (evs & Hs3 & Hevs).
    rewrite H in Hs3. simpl in Hs3. subst s3. split; [reflexivity|].
    exists evs. split; [reflexivity|].
    destruct Hevs as [-> | ->]; simpl.
    - split; [|constructor].
      intros Hin. repeat (apply elem_of_cons in Hin as [Hin|Hin]; [discriminate|]).
      now apply elem_of_nil in Hin.
    - split.
      + intros Hin. repeat (apply elem_of_cons in Hin as [Hin|Hin]; [discriminate|]).
        now apply elem_of_nil in Hin.
      + repeat constructor. unfold sendRequest_request.
        now destruct (0 <? String.length (token (provider s2)))%nat. }
  split.
  - intros s1 dynRes s2 e s3 Hlogin Hsend Hp.
    destruct (Hpub _ _ _ _ Hp) as [Hprov Hevs].
    split; [|split; [|exact Hevs]].
    + rewrite (Present_steps W s _ _ _ _ _ _ Hrec), Hzone.
      rewrite (bind_ok _ _ _ zone (after s [Enter "Present"])) by reflexivity.
      rewrite (bind_ok _ _ _ _ _ Hlogin), (bind_ok _ _ _ _ _ Hsend).
      now rewrite (bind_err _ _ _ _ _ Hp).
    + rewrite Hprov. pose proof (sendRequest_provider W s1 "POST"
        (txtResource zone fqdn) (txtPayload value ttl)) as Hsp.
      now rewrite Hsend in Hsp.
  - intros s1 resp e s3 Hlogin req Hnew Hdo Hcode Hp.
    destruct (Hpub _ _ _ _ Hp) as [Hprov (evs & Htr & Hevs)].
    split; [|split].
    + rewrite (CleanUp_steps W s _ _ _ _ _ _ Hrec), Hzone.
      rewrite (bind_ok _ _ _ zone (after s [Enter "CleanUp"])) by reflexivity.
      rewrite (bind_ok _ _ _ _ _ Hlogin).
      rewrite (CleanUp_delete_ok W s1 zone fqdn resp _ Hnew Hdo Hcode).
      fold req. now rewrite (bind_err _ _ _ _ _ Hp).
    + exact Hprov.
    + exists evs. split; [|exact Hevs]. rewrite Htr. simpl.
      now rewrite <- app_assoc.
Qed.

Lemma publish_failure_stops_witness :
  let W := Failures.publishAnswered 500 Examples.htmlBody in
  let s := Examples.start Examples.fresh in
  fst (Present W "example.com" "tok" "key" s) = Err (ServerError 500) ∧
  fst (CleanUp W "example.com" "tok" "key" s) = Err (ServerError 500).
Proof.
  cbv zeta.
  destruct (publish_failure_stops (Failures.publishAnswered 500 Examples.htmlBody)
              (Examples.start Examples.fresh) "example.com" "tok" "key"
              "_acme-challenge.example.com." "digest-of-key" "example.com." 120
              eq_refl eq_refl) as [HP HC].
  split.
  - pose (W := Failures.publishAnswered 500 Examples.htmlBody).
    pose (s1 := snd (login W (after (Examples.start Examples.fresh) [Enter "Present"]))).
    pose (s2 := snd (sendRequest W "POST"
                       (txtResource "example.com." "_acme-challenge.example.com.")
                       (txtPayload "digest-of-key" 120) s1)).
    pose (s3 := snd (publish W "example.com." addedNote s2)).
    destruct (HP s1 Examples.successEnvelope s2 (ServerError 500) s3) as [H _];
      [vm_compute; reflexivity..|]. now rewrite H.
  - pose (W := Failures.publishAnswered 500 Examples.htmlBody).
    pose (s1 := snd (login W (after (Examples.start Examples.fresh) [Enter "CleanUp"]))).
    pose (req := deleteRequest (token (provider s1))
                   (dynBaseURL +:+ "/" +:+
                    txtResource "example.com." "_acme-challenge.example.com.")).
    pose (s3 := snd (publish W "example.com." removedNote (after s1 [Sent req]))).
    destruct (HC s1 {| StatusCode := 200; RespBody := Examples.successBody |}
                (ServerError 500) s3) as [H _];
      [vm_compute; reflexivity..|]. now rewrite H.
Defined.

(** X10: when everything but the last step has succeeded, [Present] and
    [CleanUp] return what [logout] returns.  So when only the DELETE of
    the session fails, the caller is given that error although the
    record has been changed and published, and the receiver still holds
    the token. *)
Theorem logout_failure_is_reported (W : World) (s : State)
    (domain token_ keyAuth fqdn value zone : string) (ttl : Z) :
  DNS01Record W domain keyAuth = (fqdn, value, ttl) →
  FindZoneByFqdn W fqdn = inr zone →
  (∀ s1 dynRes s2 s3 e s4,
     login W (after s [Enter "Present"]) = (Ok tt, s1) →
     sendRequest W "POST" (txtResource zone fqdn) (txtPayload value ttl) s1
       = (Ok dynRes, s2) →
     publish W zone addedNote s2 = (Ok tt, s3) →
     logout W s3 = (Err e, s4) →
     Present W domain token_ keyAuth s = (Err e, s4) ∧
     provider s4 = provider s1 ∧ token (provider s4) ≠ "") ∧
  (∀ s1 resp s3 e s4,
     login W (after s [Enter "CleanUp"]) = (Ok tt, s1) →
     let req := deleteRequest (token (provider s1))
                  (dynBaseURL +:+ "/" +:+ txtResource zone fqdn) in
     NewRequestError W "DELETE" (dynBaseURL +:+ "/" +:+ txtResource zone fqdn) = None →
     Do W (sent (trace s1)) req = inr resp →
     StatusCode resp = 200%Z →
     publish W zone removedNote (after s1 [Sent req]) = (Ok tt, s3) →
     logout W s3 = (Err e, s4) →
     CleanUp W domain token_ keyAuth s = (Err e, s4) ∧
     provider s4 = provider s1 ∧ token (provider s4) ≠ "").
Proof.
  intros Hrec Hzone.
  assert (Hout : ∀ s3 e s4, logout W s3 = (Err e, s4) →
            provider s4 = provider s3 ∧ token (provider s4) ≠ "").
  { intros s3 e s4 H. destruct (logout_cases W s3) as [(e' & _ & Hp & Hne)|[Hok _]].
    - rewrite H in Hp. simpl in Hp. now rewrite Hp.
    - rewrite H in Hok. discriminate. }
  split.
  - intros s1 dynRes s2 s3 e s4 Hlogin Hsend Hpub Hlogout.
    destruct (Hout _ _ _ Hlogout) as [Hp Hne].
    split; [|split; [|exact Hne]].
    + rewrite (Present_steps W s _ _ _ _ _ _ Hrec), Hzone.
      rewrite (bind_ok _ _ _ zone (after s [Enter "Present"])) by reflexivity.
      rewrite (bind_ok _ _ _ _ _ Hlogin), (bind_ok _ _ _ _ _ Hsend).
      now rewrite (bind_ok _ _ _ _ _ Hpub).
    + rewrite Hp.
      pose proof (publish_provider W s2 zone addedNote) as H3.
      rewrite Hpub in H3. simpl in H3. rewrite H3.
      pose proof (sendRequest_provider W s1 "POST"
        (txtResource zone fqdn) (txtPayload value ttl)) as H2.
      now rewrite Hsend in H2.
  - intros s1 resp s3 e s4 Hlogin req Hnew Hdo Hcode Hpub Hlogout.
    destruct (Hout _ _ _ Hlogout) as [Hp Hne].
    split; [|split; [|exact Hne]].
    + rewrite (CleanUp_steps W s _ _ _ _ _ _ Hrec), Hzone.
      rewrite (bind_ok _ _ _ zone (after s [Enter "CleanUp"])) by reflexivity.
      rewrite (bind_ok _ _ _ _ _ Hlogin).
      rewrite (CleanUp_delete_ok W s1 zone fqdn resp _ Hnew Hdo Hcode).
      fold req. now rewrite (bind_ok _ _ _ _ _ Hpub).
    + rewrite Hp.
      pose proof (publish_provider W (after s1 [Sent req]) zone removedNote) as H3.
      now rewrite Hpub in H3.
Qed.

Lemma logout_failure_is_reported_witness :
  let W := Failures.logoutAnswered 401 in
  let s := Examples.start Examples.fresh in
  fst (Present W "example.com" "tok" "key" s) = Err (DeleteSessionStatus 401) ∧
  fst (CleanUp W "example.com" "tok" "key" s) = Err (DeleteSessionStatus 401).
Proof.
  cbv zeta.
  destruct (logout_failure_is_reported (Failures.logoutAnswered 401)
              (Examples.start Examples.fresh) "example.com" "tok" "key"
              "_acme-challenge.example.com." "digest-of-key" "example.com." 120
              eq_refl eq_refl) as [HP HC].
  split.
  - pose (W := Failures.logoutAnswered 401).
    pose (s1 := snd (login W (after (Examples.start Examples.fresh) [Enter "Present"]))).
    pose (s2 := snd (sendRequest W "POST"
                       (txtResource "example.com." "_acme-challenge.example.com.")
                       (txtPayload "digest-of-key" 120) s1)).
    pose (s3 := snd (publish W "example.com." addedNote s2)).
    destruct (HP s1 Examples.successEnvelope s2 s3 (DeleteSessionStatus 401)
                (snd (logout W s3))) as [H _];
      [vm_compute; reflexivity..|]. now rewrite H.
  - pose (W := Failures.logoutAnswered 401).
    pose (s1 := snd (login W (after (Examples.start Examples.fresh) [Enter "CleanUp"]))).
    pose (req := deleteRequest (token (provider s1))
                   (dynBaseURL +:+ "/" +:+
                    txtResource "example.com." "_acme-challenge.example.com.")).
    pose (s3 := snd (publish W "example.com." removedNote (after s1 [Sent req]))).
    destruct (HC s1 {| StatusCode := 200; RespBody := Examples.successBody |}
                s3 (DeleteSessionStatus 401) (snd (logout W s3))) as [H _];
      [vm_compute; reflexivity..|]. now rewrite H.
Defined.

(** ** What a call leaves in the receiver *)

Lemma login_Ok W s s1 :
  login W s = (Ok tt, s1) → ∃ sess, provider s1 = withToken (provider s) (Token sess).
Proof.
  intros H. destruct (login_cases W s) as [(e & He & _)|(sess & _ & Hp)].
  - rewrite H in He. discriminate.
  - rewrite H in Hp. now exists sess.
Qed.

Lemma logout_Err W s e s' :
  logout W s = (Err e, s') → provider s' = provider s.
Proof.
  intros H. destruct (logout_cases W s) as [(e' & _ & Hp & _)|[Hok _]].
  - now rewrite H in Hp.
  - rewrite H in Hok. discriminate.
Qed.

(** The end of both methods, from the state after the change of the
    record: [publish] and then [logout]. *)
Lemma publish_logout_receiver W zone notes s2 :
  let out := (publish W zone notes ;; logout W) s2 in
  match fst out with
  | Ok _ => provider (snd out) = withToken (provider s2) ""
  | Err _ => provider (snd out) = provider s2
  end.
Proof.
  cbv zeta. unfold bind.
  pose proof (publish_provider W s2 zone notes) as Hp.
  destruct (publish W zone notes s2) as [[[]|e] s3]; simpl in Hp; [|exact Hp].
  destruct (logout W s3) as [[[]|e] s4] eqn:Ho; simpl.
  - rewrite (logout_Ok W s3 s4 Ho). now rewrite Hp.
  - rewrite (logout_Err W s3 e s4 Ho). exact Hp.
Qed.

Lemma receiver_after (W : World) (s : State)
    (domain token_ keyAuth : string) (call : M unit) (name : string) :
  (call = Present W domain token_ keyAuth ∧ name = "Present") ∨
  (call = CleanUp W domain token_ keyAuth ∧ name = "CleanUp") →
  leaves W name s (call s).
Proof.
  intros Hcall. unfold leaves.
  assert (Hgoal : match fst (call s) with
    | Ok _ => provider (snd (call s)) = withToken (provider s) ""
    | Err _ =>
        provider (snd (call s)) = provider s ∨
        ∃ s1, login W (after s [Enter name]) = (Ok tt, s1) ∧
              provider (snd (call s)) = provider s1
    end).
  { destruct (DNS01Record W domain keyAuth) as [[fqdn value] ttl] eqn:Hrec.
    destruct Hcall as [[-> ->]|[-> ->]].
    - rewrite (Present_steps W s _ _ _ _ _ _ Hrec).
      destruct (FindZoneByFqdn W fqdn) as [msg|zone]; [now left|].
      rewrite (bind_ok _ _ _ zone (after s [Enter "Present"])) by reflexivity.
      destruct (login W (after s [Enter "Present"])) as [[[]|e] s1] eqn:Hlogin.
      2:{ rewrite (bind_err _ _ _ _ _ Hlogin). left.
          apply (login_Err _ _ _ _ Hlogin). }
      rewrite (bind_ok _ _ _ _ _ Hlogin).
      pose proof (sendRequest_provider W s1 "POST" (txtResource zone fqdn)
                    (txtPayload value ttl)) as Hs.
      destruct (sendRequest W "POST" (txtResource zone fqdn) (txtPayload value ttl) s1)
        as [[dynRes|e] s2] eqn:Hsend; simpl in Hs.
      2:{ rewrite (bind_err _ _ _ _ _ Hsend). right. now exists s1. }
      rewrite (bind_ok _ _ _ _ _ Hsend).
      pose proof (publish_logout_receiver W zone addedNote s2) as Hend.
      cbv zeta in Hend.
      destruct (fst ((publish W zone addedNote;; logout W) s2)).
      + rewrite Hend, Hs. destruct (login_Ok W _ _ Hlogin) as [sess ->]. reflexivity.
      + right. exists s1. split; [reflexivity|]. now rewrite Hend.
    - rewrite (CleanUp_steps W s _ _ _ _ _ _ Hrec).
      destruct (FindZoneByFqdn W fqdn) as [msg|zone]; [now left|].
      rewrite (bind_ok _ _ _ zone (after s [Enter "CleanUp"])) by reflexivity.
      destruct (login W (after s [Enter "CleanUp"])) as [[[]|e] s1] eqn:Hlogin.
      2:{ rewrite (bind_err _ _ _ _ _ Hlogin). left.
          apply (login_Err _ _ _ _ Hlogin). }
      rewrite (bind_ok _ _ _ _ _ Hlogin).
      destruct (NewRequestError W "DELETE"
                  (dynBaseURL +:+ "/" +:+ txtResource zone fqdn)) as [msg|] eqn:Hnew.
      { run. rewrite Hnew. right. now exists s1. }
      destruct (Do W (sent (trace s1))
                  (deleteRequest (token (provider s1))
                     (dynBaseURL +:+ "/" +:+ txtResource zone fqdn)))
        as [msg|resp] eqn:Hdo.
      { run. rewrite Hnew. simpl.
        fold (deleteRequest (token (provider s1))
                (dynBaseURL +:+ "/" +:+ txtResource zone fqdn)).
        rewrite Hdo. right. now exists s1. }
      destruct (Z.eqb_spec (StatusCode resp) 200) as [Hcode|Hcode].
      2:{ run. rewrite Hnew. simpl.
          fold (deleteRequest (token (provider s1))
                  (dynBaseURL +:+ "/" +:+ txtResource zone fqdn)).
          rewrite Hdo.
          replace (StatusCode resp =? 200)%Z with false
            by (symmetry; now apply Z.eqb_neq).
          right. now exists s1. }
      rewrite (CleanUp_delete_ok W s1 zone fqdn resp _ Hnew Hdo Hcode).
      pose proof (publish_logout_receiver W zone removedNote
                    (after s1 [Sent (deleteRequest (token (provider s1))
                       (dynBaseURL +:+ "/" +:+ txtResource zone fqdn))])) as Hend.
      cbv zeta in Hend.
      destruct (fst ((publish W zone removedNote;; logout W) _)).
      + rewrite Hend. simpl. destruct (login_Ok W _ _ Hlogin) as [sess ->]. reflexivity.
      + right. exists s1. split; [reflexivity|]. now rewrite Hend. }
  split; [|exact Hgoal].
  destruct (fst (call s)).
  - now rewrite Hgoal.
  - destruct Hgoal as [->|(s1 & Hlogin & ->)]; [reflexivity|].
    destruct (login_Ok W _ _ Hlogin) as [sess ->]. reflexivity.
Qed.

(** X11: what [Present] and [CleanUp] leave in the receiver.  After a
    success the receiver is the one before the call with an empty token:
    the session is closed.  After an error the token has not been
    cleared: the receiver is as before the call, or, when the login had
    succeeded, it holds the token the login received.  The credentials
    and the client are never changed. *)
Theorem receiver_after_call (W : World) (s : State) (domain token_ keyAuth : string) :
  leaves W "Present" s (Present W domain token_ keyAuth s) ∧
  leaves W "CleanUp" s (CleanUp W domain token_ keyAuth s).
Proof.
  split.
  - apply (receiver_after W s domain token_ keyAuth). now left.
  - apply (receiver_after W s domain token_ keyAuth). now right.
Qed.

(** ** The successful removal *)

(** X12: when the zone is found and every request is built, answered
    and taken as a success (the login's data unmarshals to a session, the
    two DELETE requests are answered 200), [CleanUp] returns success
    after exactly these steps, in this order: login (POST Session), the
    DELETE of TXTRecord/zone/fqdn/ sent directly with the token of the
    session and no body, publish (PUT Zone/zone/ with publish true),
    logout (DELETE Session).  The record DELETE goes to the URL that
    [Present] posts to for the same domain. *)
Theorem CleanUp_success (W : World) (s : State)
    (domain token_ keyAuth fqdn value zone : string) (ttl : Z)
    (r1 r2 r3 : Response) (e1 e3 : dynResponse) (sess : session) :
  let d := provider s in
  let d1 := withToken d (Token sess) in
  let q1 := sendRequest_request d "POST" "Session"
              (JObject [("customer_name", JString (customerName d));
                        ("user_name", JString (userName d));
                        ("password", JString (password d))]) in
  let q2 := deleteRequest (Token sess)
              (dynBaseURL +:+ "/" +:+
               ("TXTRecord/" +:+ zone +:+ "/" +:+ fqdn +:+ "/")) in
  let q3 := sendRequest_request d1 "PUT" ("Zone/" +:+ zone +:+ "/")
              (JObject [("publish", JBool true); ("notes", JString removedNote)]) in
  let q4 := deleteRequest (Token sess) (dynBaseURL +:+ "/Session") in
  DNS01Record W domain keyAuth = (fqdn, value, ttl) →
  FindZoneByFqdn W fqdn = inr zone →
  (∀ q, q ∈ [q1; q2; q3; q4] → NewRequestError W (Method q) (URL q) = None) →
  Do W (sent (trace s)) q1 = inr r1 →
  accepted W r1 e1 →
  UnmarshalSession W (Data e1) = inr sess →
  Do W (sent (trace s) ++ [q1]) q2 = inr r2 →
  StatusCode r2 = 200%Z →
  Do W (sent (trace s) ++ [q1; q2]) q3 = inr r3 →
  accepted W r3 e3 →
  (Token sess ≠ "" →
   ∃ r4, Do W (sent (trace s) ++ [q1; q2; q3]) q4 = inr r4 ∧ StatusCode r4 = 200%Z) →
  CleanUp W domain token_ keyAuth s =
    (Ok tt,
     {| provider := withToken d "";
        trace := trace s ++
                 [Enter "CleanUp";
                  Enter "login"; Enter "sendRequest"; Sent q1;
                  Sent q2;
                  Enter "publish"; Enter "sendRequest"; Sent q3;
                  Enter "logout"] ++
                 (if (Token sess =? "")%string then [] else [Sent q4]) |}).
Proof.
  intros d d1 q1 q2 q3 q4 Hrec Hzone Hnew Hdo1 Hacc1 Hun Hdo2 Hcode2 Hdo3 Hacc3 Hdo4.
  assert (Hmu : ∀ d' method resource payload,
            Method (sendRequest_request d' method resource payload) = method ∧
            URL (sendRequest_request d' method resource payload)
              = dynBaseURL +:+ "/" +:+ resource).
  { intros d' method resource payload. unfold sendRequest_request.
    now destruct (0 <? String.length (token d'))%nat. }
  assert (Hnew1 : NewRequestError W "POST" (dynBaseURL +:+ "/Session") = None).
  { specialize (Hnew q1). destruct (Hmu d "POST" "Session"
      (JObject [("customer_name", JString (customerName d));
                ("user_name", JString (userName d));
                ("password", JString (password d))])) as [Hm Hu].
    fold q1 in Hm, Hu. rewrite Hm, Hu in Hnew. apply Hnew. in_list. }
  assert (Hnew2 : NewRequestError W "DELETE"
            (dynBaseURL +:+ "/" +:+ txtResource zone fqdn) = None).
  { apply (Hnew q2). in_list. }
  assert (Hnew3 : NewRequestError W "PUT"
            (dynBaseURL +:+ "/" +:+ zoneResource zone) = None).
  { specialize (Hnew q3). destruct (Hmu d1 "PUT" ("Zone/" +:+ zone +:+ "/")
      (JObject [("publish", JBool true); ("notes", JString removedNote)])) as [Hm Hu].
    fold q3 in Hm, Hu. rewrite Hm, Hu in Hnew. apply Hnew. in_list. }
  assert (Hnew4 : NewRequestError W "DELETE" (dynBaseURL +:+ "/Session") = None).
  { apply (Hnew q4). in_list. }
  rewrite (CleanUp_steps W s _ _ _ _ _ _ Hrec), Hzone.
  rewrite (bind_ok _ _ _ zone (after s [Enter "CleanUp"])) by reflexivity.
  erewrite bind_ok; cycle 1.
  { apply (login_ok W _ r1 e1 sess Hnew1); simpl; [norm_sent|..]; assumption. }
  erewrite (CleanUp_delete_ok W _ zone fqdn r2 _ Hnew2); [| |exact Hcode2]; cycle 1.
  { simpl. norm_sent. exact Hdo2. }
  erewrite bind_ok; cycle 1.
  { apply (publish_ok W _ _ _ r3 e3 Hnew3); simpl; [norm_sent|]; assumption. }
  unfold after. simpl.
  destruct (String.eqb_spec (Token sess) "") as [Hempty|Hne].
  - rewrite logout_noop by exact Hempty. unfold after. simpl.
    rewrite <- !app_assoc. simpl. f_equal. f_equal.
    unfold withToken, d. simpl. now rewrite Hempty.
  - destruct (Hdo4 Hne) as (r4 & Hdo4' & Hcode).
    erewrite logout_ok; [|exact Hne|exact Hnew4| |exact Hcode]; cycle 1.
    { simpl. norm_sent. exact Hdo4'. }
    simpl. rewrite <- !app_assoc. reflexivity.
Qed.

Lemma CleanUp_success_witness :
  fst (CleanUp Examples.allSuccess "example.com" "tok" "key"
         (Examples.start Examples.fresh)) = Ok tt.
Proof.
  pose proof (CleanUp_success Examples.allSuccess (Examples.start Examples.fresh)
                "example.com" "tok" "key"
                "_acme-challenge.example.com." "digest-of-key" "example.com." 120
                {| StatusCode := 200; RespBody := Examples.successBody |}
                {| StatusCode := 200; RespBody := Examples.successBody |}
                {| StatusCode := 200; RespBody := Examples.successBody |}
                Examples.successEnvelope Examples.successEnvelope
                {| Token := "T0"; Version := "3.7.11" |}) as H.
  cbv zeta in H.
  assert (Hacc : accepted Examples.allSuccess
                   {| StatusCode := 200; RespBody := Examples.successBody |}
                   Examples.successEnvelope).
  { unfold accepted. simpl. repeat split; try lia; try reflexivity; discriminate. }
  rewrite H; try reflexivity; try exact Hacc.
  intros _. exists {| StatusCode := 200; RespBody := Examples.successBody |}.
  split; reflexivity.
Defined.

(** ** Which requests a call makes, and in which order *)

Lemma sendRequest_request_shape d method resource payload :
  Method (sendRequest_request d method resource payload) = method ∧
  URL (sendRequest_request d method resource payload)
    = dynBaseURL +:+ "/" +:+ resource ∧
  Body (sendRequest_request d method resource payload) = Some payload ∧
  isJSON (sendRequest_request d method resource payload).
Proof.
  unfold sendRequest_request, isJSON, HeaderSet.
  destruct (0 <? String.length (token d))%nat; simpl;
    repeat split; reflexivity.
Qed.

Lemma sendRequest_request_wellFormed d method resource payload :
  method ≠ "DELETE" →
  kind (sendRequest_request d method resource payload)
    = (method, dynBaseURL +:+ "/" +:+ resource) ∧
  wellFormed (sendRequest_request d method resource payload).
Proof.
  intros Hne.
  destruct (sendRequest_request_shape d method resource payload)
    as (Hm & Hu & Hb & Hj).
  unfold kind, wellFormed. rewrite Hm, Hu. repeat split; [exact Hj|].
  intros Hd. now destruct Hne.
Qed.

Lemma deleteRequest_wellFormed tok url :
  kind (deleteRequest tok url) = ("DELETE", url) ∧ wellFormed (deleteRequest tok url).
Proof.
  unfold kind, wellFormed, deleteRequest, isJSON, HeaderSet. simpl.
  repeat split.
Qed.
Section InOrder.

Context (W : World).

(** Closes a case in which the trace, the requests and their kinds are
    all at hand. *)
Ltac settle :=
  simpl; split; [reflexivity|]; split; [eassumption|]; reflexivity.

Lemma inOrder_bind {A B} (m : M A) (k : A → M B) exact ks1 ks2 :
  sendsInOrder true ks1 m →
  (∀ a, sendsInOrder exact ks2 (k a)) →
  sendsInOrder exact (ks1 ++ ks2) (bind m k).
Proof.
  intros Hm Hk s. unfold bind.
  destruct (Hm s) as (evs & Htr & Hwf & Hks).
  destruct (m s) as [[a|e] s1]; simpl in *.
  - destruct (Hk a s1) as (evs' & Htr' & Hwf' & Hks').
    exists (evs ++ evs'). rewrite Htr', Htr, app_assoc, sent_app, fmap_app, Hks.
    split; [reflexivity|]. split; [now apply Forall_app|].
    destruct (fst (k a s1)).
    + destruct exact; [now rewrite Hks' | now apply prefix_app].
    + now apply prefix_app.
  - exists evs. repeat split; try assumption. now apply prefix_app_r.
Qed.

Lemma inOrder_sendRequest method resource payload :
  method ≠ "DELETE" →
  sendsInOrder true [(method, dynBaseURL +:+ "/" +:+ resource)]
    (sendRequest W method resource payload).
Proof.
  intros Hne s.
  destruct (NewRequestError W method (dynBaseURL +:+ "/" +:+ resource))
    as [msg|] eqn:Hnew.
  - rewrite (sendRequest_rejected W s _ _ _ msg Hnew).
    exists [Enter "sendRequest"]. simpl.
    repeat split; [constructor | apply prefix_nil].
  - rewrite (sendRequest_run W s _ _ _ Hnew).
    destruct (sendRequest_request_wellFormed (provider s) method resource payload Hne)
      as [Hk Hwf].
    eexists. split; [reflexivity|]. simpl. rewrite Hk.
    split; [constructor; [exact Hwf | constructor]|].
    now destruct (match Do W _ _ with inl _ => _ | inr _ => _ end).
Qed.

Lemma inOrder_login :
  sendsInOrder true [("POST", dynBaseURL +:+ "/Session")] (login W).
Proof.
  intros s.
  destruct (NewRequestError W "POST" (dynBaseURL +:+ "/Session")) as [msg|] eqn:Hnew.
  - rewrite (login_rejected W s msg Hnew).
    eexists. split; [reflexivity|]. simpl.
    repeat split; [constructor | apply prefix_nil].
  - destruct (sendRequest_request_wellFormed (provider s) "POST" "Session"
                (credsPayload (provider s))) as [Hk Hwf]; [discriminate|].
    exists [Enter "login"; Enter "sendRequest";
            Sent (sendRequest_request (provider s) "POST" "Session"
                    (credsPayload (provider s)))].
    rewrite (login_run W s Hnew). cbv zeta.
    assert (Hcommon : Forall wellFormed
              (sent [Enter "login"; Enter "sendRequest";
                     Sent (sendRequest_request (provider s) "POST" "Session"
                             (credsPayload (provider s)))]))
      by (simpl; constructor; [exact Hwf | constructor]).
    simpl in *. rewrite Hk.
    destruct (Do W _ _) as [msg|resp]; [settle|].
    destruct (classify W resp) as [dynRes|e]; [|settle].
    destruct (UnmarshalSession W (Data dynRes)) as [msg|sess]; settle.
Qed.

Lemma inOrder_publish zone notes :
  sendsInOrder true [("PUT", dynBaseURL +:+ "/" +:+ zoneResource zone)]
    (publish W zone notes).
Proof.
  intros s.
  destruct (NewRequestError W "PUT" (dynBaseURL +:+ "/" +:+ zoneResource zone))
    as [msg|] eqn:Hnew.
  - rewrite (publish_rejected W s _ _ msg Hnew).
    eexists. split; [reflexivity|]. simpl.
    repeat split; [constructor | apply prefix_nil].
  - rewrite (publish_run W s _ _ Hnew). cbv zeta.
    destruct (sendRequest_request_wellFormed (provider s) "PUT" (zoneResource zone)
                (publishPayload notes)) as [Hk Hwf]; [discriminate|].
    eexists. split; [reflexivity|]. simpl. rewrite Hk.
    split; [constructor; [exact Hwf | constructor]|].
    now destruct (match Do W _ _ with inl _ => _ | inr _ => _ end) as [[]|].
Qed.

Lemma inOrder_logout :
  sendsInOrder false [("DELETE", dynBaseURL +:+ "/Session")] (logout W).
Proof.
  intros s.
  destruct (String.eqb_spec (token (provider s)) "") as [Hempty|Hne].
  { rewrite (logout_noop W s Hempty). eexists. split; [reflexivity|]. simpl.
    repeat split; [constructor | apply prefix_nil]. }
  destruct (NewRequestError W "DELETE" (dynBaseURL +:+ "/Session")) as [msg|] eqn:Hnew.
  - rewrite (logout_rejected W s msg Hne Hnew). eexists. split; [reflexivity|]. simpl.
    repeat split; [constructor | apply prefix_nil].
  - destruct (deleteRequest_wellFormed (token (provider s))
                (dynBaseURL +:+ "/Session")) as [Hk Hwf].
    exists [Enter "logout";
            Sent (deleteRequest (token (provider s)) (dynBaseURL +:+ "/Session"))].
    rewrite (logout_run W s Hne Hnew). cbv zeta. simpl in *. rewrite Hk.
    assert (Hwfs : Forall wellFormed
              [deleteRequest (token (provider s)) (dynBaseURL +:+ "/Session")])
      by (constructor; [exact Hwf | constructor]).
    destruct (Do W _ _) as [msg|resp]; [settle|].
    destruct (StatusCode resp =? 200)%Z; settle.
Qed.

(** The record DELETE of [CleanUp] and what follows it. *)
Lemma inOrder_delete zone fqdn (k : M unit) exact ks :
  sendsInOrder exact ks k →
  sendsInOrder exact
    (("DELETE", dynBaseURL +:+ "/" +:+ txtResource zone fqdn) :: ks)
    (req <- NewRequest W "DELETE"
              (dynBaseURL +:+ "/" +:+ txtResource zone fqdn) None ;;
     let req := HeaderSet "Content-Type" "application/json" req in
     d <- receiver ;;
     let req := HeaderSet "Auth-Token" (token d) req in
     resp <- clientDo W req ;;
     if negb (StatusCode resp =? 200)%Z
     then fail (DeleteRecordStatus (StatusCode resp))
     else k).
Proof.
  intros Hk s. run.
  destruct (NewRequestError W "DELETE" _) as [msg|]; simpl.
  { exists []. rewrite app_nil_r. repeat split; [constructor | apply prefix_nil]. }
  fold (deleteRequest (token (provider s))
          (dynBaseURL +:+ "/" +:+ txtResource zone fqdn)).
  destruct (deleteRequest_wellFormed (token (provider s))
              (dynBaseURL +:+ "/" +:+ txtResource zone fqdn)) as [Hkind Hwf].
  assert (Hone : [("DELETE", dynBaseURL +:+ "/" +:+ txtResource zone fqdn)]
                   `prefix_of`
                 ("DELETE", dynBaseURL +:+ "/" +:+ txtResource zone fqdn) :: ks)
    by (apply prefix_cons, prefix_nil).
  destruct (Do W _ _) as [msg|resp]; simpl.
  { eexists. split; [reflexivity|]. simpl. rewrite Hkind.
    split; [constructor; [exact Hwf | constructor] | exact Hone]. }
  destruct (StatusCode resp =? 200)%Z; simpl.
  - destruct (Hk {| provider := provider s;
                    trace := trace s ++
                      [Sent (deleteRequest (token (provider s))
                               (dynBaseURL +:+ "/" +:+ txtResource zone fqdn))] |})
      as (evs & Htr & Hwfs & Hks).
    simpl in Htr.
    exists (Sent (deleteRequest (token (provider s))
                    (dynBaseURL +:+ "/" +:+ txtResource zone fqdn)) :: evs).
    rewrite Htr, <- app_assoc. split; [reflexivity|]. simpl. rewrite Hkind.
    split; [now constructor|].
    destruct (fst (k _)).
    + destruct exact; [f_equal; exact Hks | now apply prefix_cons].
    + now apply prefix_cons.
  - eexists. split; [reflexivity|]. simpl. rewrite Hkind.
    split; [constructor; [exact Hwf | constructor] | exact Hone].
Qed.

(** What a method adds after the entry of [Present] or [CleanUp]. *)
Lemma inOrder_entered (k : M unit) exact ks name s :
  sendsInOrder exact ks k →
  ∃ evs, trace (snd (k (after s [Enter name]))) = trace s ++ evs ∧
         Forall wellFormed (sent evs) ∧ (kind <$> sent evs) `prefix_of` ks.
Proof.
  intros Hk. destruct (Hk (after s [Enter name])) as (evs & Htr & Hwf & Hks).
  exists (Enter name :: evs). rewrite Htr. simpl. rewrite <- app_assoc.
  split; [reflexivity|]. split; [exact Hwf|].
  destruct (fst (k _)); [|exact Hks].
  destruct exact; [|exact Hks].
  exact (eq_ind_r (λ l, l `prefix_of` ks) (reflexivity ks) Hks).
Qed.

End InOrder.

(** X13: whatever the world answers, the requests one call of [Present]
    hands to the client go, in this order, to an initial part of: POST
    Session, POST TXTRecord/zone/fqdn/, PUT Zone/zone/, DELETE Session,
    for the zone found for the record; for [CleanUp] the second is a
    DELETE of TXTRecord/zone/fqdn/.  So each of the four is made at most
    once and never out of turn: nothing is retried, [Present] never
    deletes a record and [CleanUp] never creates one, and nothing is sent
    when no zone is found.  Every request has the JSON content type and
    every DELETE is without body. *)
Theorem requests_of_a_call (W : World) (s : State) (domain token_ keyAuth : string) :
  (∃ evs, trace (snd (Present W domain token_ keyAuth s)) = trace s ++ evs ∧
          Forall wellFormed (sent evs) ∧
          (kind <$> sent evs) `prefix_of` callKinds W domain keyAuth "POST") ∧
  (∃ evs, trace (snd (CleanUp W domain token_ keyAuth s)) = trace s ++ evs ∧
          Forall wellFormed (sent evs) ∧
          (kind <$> sent evs) `prefix_of` callKinds W domain keyAuth "DELETE").
Proof.
  unfold callKinds.
  destruct (DNS01Record W domain keyAuth) as [[fqdn value] ttl] eqn:Hrec. simpl.
  split.
  - rewrite (Present_steps W s _ _ _ _ _ _ Hrec).
    destruct (FindZoneByFqdn W fqdn) as [msg|zone] eqn:Hzone.
    { exists [Enter "Present"]. repeat split; [constructor | apply prefix_nil]. }
    rewrite (bind_ok _ _ _ zone (after s [Enter "Present"])) by reflexivity.
    apply (inOrder_entered _ false).
    apply (inOrder_bind _ _ false [_] [_; _; _]); [apply inOrder_login|intros _].
    apply (inOrder_bind _ _ false [_] [_; _]);
      [now apply inOrder_sendRequest|intros _].
    apply (inOrder_bind _ _ false [_] [_]); [apply inOrder_publish|intros _].
    apply inOrder_logout.
  - rewrite (CleanUp_steps W s _ _ _ _ _ _ Hrec).
    destruct (FindZoneByFqdn W fqdn) as [msg|zone] eqn:Hzone.
    { exists [Enter "CleanUp"]. repeat split; [constructor | apply prefix_nil]. }
    rewrite (bind_ok _ _ _ zone (after s [Enter "CleanUp"])) by reflexivity.
    apply (inOrder_entered _ false).
    apply (inOrder_bind _ _ false [_] [_; _; _]); [apply inOrder_login|intros _].
    apply inOrder_delete.
    apply (inOrder_bind _ _ false [_] [_]); [apply inOrder_publish|intros _].
    apply inOrder_logout.
Qed.

(** ** Construction from the environment *)

(** X15: [NewDNSProvider] fails with a message that starts with
    "DynDNS: " and goes on with the message of env.Get when env.Get
    fails.  When env.Get gives values, a variable that is absent from
    them or empty makes the construction fail for missing credentials,
    and three non-empty values give a provider that holds them, with an
    empty token. *)
Theorem NewDNSProvider_spec (envGet : list string → string + gmap string string) :
  let names := ["DYN_CUSTOMER_NAME"; "DYN_USER_NAME"; "DYN_PASSWORD"] in
  (∀ msg, envGet names = inl msg →
          ∃ e, NewDNSProvider envGet = Err e ∧ Error e = "DynDNS: " +:+ msg) ∧
  (∀ values : gmap string string, envGet names = inr values →
     (∀ name, name ∈ names → values !! name = None ∨ values !! name = Some "" →
              NewDNSProvider envGet = Err MissingCredentials) ∧
     (∀ c u p,
        values !! "DYN_CUSTOMER_NAME" = Some c →
        values !! "DYN_USER_NAME" = Some u →
        values !! "DYN_PASSWORD" = Some p →
        c ≠ "" → u ≠ "" → p ≠ "" →
        NewDNSProvider envGet =
          Ok {| customerName := c; userName := u; password := p;
                token := ""; client := {| Timeout := 10 * Second |} |})).
Proof.
  cbv zeta. split.
  - intros msg Hget. exists (Foreign ("DynDNS: " +:+ msg)).
    unfold NewDNSProvider. now rewrite Hget.
  - intros values Hget. unfold NewDNSProvider. rewrite Hget. split.
    + intros name Hin Hval.
      assert (Hd : default "" (values !! name) = "")
        by (destruct Hval as [-> | ->]; reflexivity).
      unfold NewDNSProviderCredentials.
      repeat (apply elem_of_cons in Hin as [-> | Hin]);
        [..|now apply elem_of_nil in Hin];
        rewrite Hd; simpl; rewrite ?orb_true_r; reflexivity.
    + intros c u p -> -> -> Hc Hu Hp. simpl. unfold NewDNSProviderCredentials.
      apply String.eqb_neq in Hc, Hu, Hp. now rewrite Hc, Hu, Hp.
Qed.

Lemma NewDNSProvider_spec_witness :
  (∃ e, NewDNSProvider (Failures.envOf [("DYN_CUSTOMER_NAME", "acme");
                                        ("DYN_USER_NAME", "bot")]) = Err e ∧
        Error e = "DynDNS: some credentials information are missing: DYN_PASSWORD") ∧
  NewDNSProvider (Failures.envOf [("DYN_CUSTOMER_NAME", "acme");
                                  ("DYN_USER_NAME", "bot");
                                  ("DYN_PASSWORD", "s3cret")])
    = Ok Examples.fresh.
Proof.
  split.
  - apply (proj1 (NewDNSProvider_spec
                    (Failures.envOf [("DYN_CUSTOMER_NAME", "acme");
                                     ("DYN_USER_NAME", "bot")]))
             "some credentials information are missing: DYN_PASSWORD").
    vm_compute. reflexivity.
  - refine (proj2 (proj2 (NewDNSProvider_spec
              (Failures.envOf [("DYN_CUSTOMER_NAME", "acme");
                               ("DYN_USER_NAME", "bot");
                               ("DYN_PASSWORD", "s3cret")]))
              _ _) "acme" "bot" "s3cret" _ _ _ _ _ _);
      first [vm_compute; reflexivity | discriminate].
Defined.
